(** * Workflow orchestration engine of the maths-agent project

    A shallow embedding of the workflow service
    (backend/workflow-service), of the QC score calculator
    (backend/qc-service/qc/score_calculator.py) and of the parts of
    backend/shared they use.

    Python [str] values are [string]s (UTF-8 bytes, so the accented event
    descriptions are kept as they are written in the source), Python
    dictionaries are [gmap]s, [float] scores are rationals (only comparisons
    and the arithmetic of the score calculator are used), exceptions are the
    values of [exn], and code that reads or writes the persistence service,
    enqueues Celery tasks or raises runs in the state-and-error monad [M]
    over [World]. *)

From stdpp Require Import base strings gmap list option pretty.
From Stdlib Require Import QArith Lqa.
Close Scope Q_scope.
Open Scope string_scope.

(** ** Exceptions (backend/shared/exceptions.py and the built-in ones) *)

Inductive exn : Type :=
| NotFoundException (detail : string)
| BadRequestException (detail : string)
| InvalidWorkflowStateException (current_status attempted_action : string)
| ServiceUnavailableException (detail : string)
| HTTPStatusError (url : string)
| HTTPException500
| ValueError (msg : string)
| ValidationError (field : string)
| KeyError (key : string)
| AttributeError (attr : string)
| TypeError (msg : string)
| IndexError
| NameError (name : string).

(** [InvalidWorkflowStateException] is the only [invalid_transition] error
    of the code base; it subclasses [BadRequestException]. *)
Definition is_invalid_transition (e : exn) : bool :=
  match e with InvalidWorkflowStateException _ _ => true | _ => false end.

Definition is_BadRequestException (e : exn) : bool :=
  match e with
  | BadRequestException _ | InvalidWorkflowStateException _ _ => true
  | _ => false
  end.

(** ** workflow/state_machine.py *)

Module StateMachine.

Definition BLOCK_STATES : list string :=
  [ "pending_generation"; "generation_in_progress"; "generation_failed";
    "qc_pending"; "qc_in_progress"; "qc_failed"; "qc_passed";
    "refinement_pending"; "refinement_in_progress"; "refinement_failed";
    "pending_validation"; "validated"; "archived"; "critical_error" ].

(** The module-level dictionary [EVENTS]: event name ↦ description. *)
Definition EVENTS_items : list (string * string) :=
  [ ("GENERATE_STARTED", "Génération démarrée");
    ("GENERATE_SUCCESS", "Génération réussie");
    ("GENERATE_FAILED", "Génération échouée");
    ("QC_STARTED", "QC démarré");
    ("QC_PASSED", "QC réussi");
    ("QC_FAILED", "QC échoué");
    ("REFINEMENT_NEEDED", "Raffinement nécessaire");
    ("REFINEMENT_STARTED", "Raffinement démarré");
    ("REFINEMENT_SUCCESS", "Raffinement réussi");
    ("REFINEMENT_FAILED", "Raffinement échouée");
    ("USER_VALIDATE", "Validation utilisateur");
    ("USER_REDO", "Demande de raffinement par l'utilisateur");
    ("ARCHIVE", "Archivage du bloc");
    ("CRITICAL_FAIL", "Échec critique") ].

Definition EVENTS : gmap string string := list_to_map EVENTS_items.

(** [EVENTS[key]]: subscripting raises [KeyError] on a missing key. *)
Definition EVENTS_getitem (key : string) : exn + string :=
  match EVENTS !! key with
  | Some v => inr v
  | None => inl (KeyError key)
  end.

Record ContentBlockStateMachine : Type := mkFSM {
  current_state : string;
  mode : string;
  block_id : string;
  project_id : string
}.

Definition set_current_state (fsm : ContentBlockStateMachine) (s : string)
  : ContentBlockStateMachine :=
  mkFSM s (mode fsm) (block_id fsm) (project_id fsm).

(** [__init__]: the initial state has to be one of [BLOCK_STATES]. *)
Definition init (initial_state mode block_id project_id : string)
  : exn + ContentBlockStateMachine :=
  if bool_decide (initial_state ∈ BLOCK_STATES)
  then inr (mkFSM initial_state mode block_id project_id)
  else inl (ValueError initial_state).

(** The dictionary literal [transitions] of [_get_allowed_transitions]. *)
Definition transitions_items : list (string * list (string * string)) :=
  [ ("pending_generation",
       [ ("GENERATE_STARTED", "generation_in_progress") ]);
    ("generation_in_progress",
       [ ("GENERATE_SUCCESS", "qc_pending");
         ("GENERATE_FAILED", "generation_failed");
         ("CRITICAL_FAIL", "critical_error") ]);
    ("generation_failed",
       [ ("ARCHIVE", "archived") ]);
    ("qc_pending",
       [ ("QC_STARTED", "qc_in_progress") ]);
    ("qc_in_progress",
       [ ("QC_PASSED", "qc_passed");
         ("QC_FAILED", "qc_failed");
         ("CRITICAL_FAIL", "critical_error") ]);
    ("qc_passed",
       [ ("USER_VALIDATE", "validated");
         ("ARCHIVE", "archived");
         ("REFINEMENT_NEEDED", "refinement_pending") ]);
    ("qc_failed",
       [ ("REFINEMENT_NEEDED", "refinement_pending");
         ("USER_REDO", "refinement_pending") ]);
    ("refinement_pending",
       [ ("REFINEMENT_STARTED", "refinement_in_progress") ]);
    ("refinement_in_progress",
       [ ("REFINEMENT_SUCCESS", "qc_pending");
         ("REFINEMENT_FAILED", "refinement_failed");
         ("CRITICAL_FAIL", "critical_error") ]);
    ("refinement_failed",
       [ ("ARCHIVE", "archived") ]);
    ("pending_validation",
       [ ("USER_VALIDATE", "validated");
         ("USER_REDO", "refinement_pending") ]);
    ("validated",
       [ ("ARCHIVE", "archived") ]);
    ("critical_error",
       [ ("ARCHIVE", "archived") ]) ].

Definition transitions : gmap string (gmap string string) :=
  list_to_map (prod_map id list_to_map <$> transitions_items).

(** [transitions.get(state, {}).get(event)] *)
Definition transitions_get (state event : string) : option string :=
  default ∅ (transitions !! state) !! event.

(** Truth value of a Python string: the empty string is falsy. *)
Definition truthy (s : string) : bool :=
  match s with EmptyString => false | _ => true end.

Definition _get_allowed_transitions
    (self : ContentBlockStateMachine) (event : string) : list string :=
  let fallthrough :=
    match transitions_get (current_state self) event with
    | Some next_state => if truthy next_state then [next_state] else []
    | None => []
    end in
  if bool_decide (mode self = "Supervisé") then
    if bool_decide (current_state self = "qc_passed")
       && bool_decide (event = "QC_PASSED")
    then ["pending_validation"]
    else if bool_decide (current_state self = "qc_failed")
            && bool_decide (event = "QC_FAILED")
    then ["refinement_pending"]
    else fallthrough
  else if bool_decide (mode self = "Autonome") then
    if bool_decide (current_state self = "qc_passed")
       && bool_decide (event = "QC_PASSED")
    then ["validated"]
    else if bool_decide (current_state self = "qc_failed")
            && bool_decide (event = "QC_FAILED")
    then ["refinement_pending"]
    else fallthrough
  else fallthrough.

(** [transition]: the outcome, and the machine afterwards (the method
    mutates [self.current_state] only when it does not raise). *)
Definition transition
    (self : ContentBlockStateMachine) (event : string)
  : (exn + string) * ContentBlockStateMachine :=
  match _get_allowed_transitions self event with
  | [] =>
      (inl (InvalidWorkflowStateException (current_state self)
              ("Événement '" +:+ event +:+ "' non permis.")), self)
  | new_state :: _ =>
      (inr new_state, set_current_state self new_state)
  end.

End StateMachine.

(** ** backend/shared/models.py and backend/shared/config.py *)

Module Models.

Record QCProblem : Type := mkQCProblem {
  type_ : string;
  severity : string;
  description : string;
  location : option string;
  suggested_fix : option string
}.

(** The pydantic model [QCReport] ([details] is an opaque bag and is left
    out). *)
Record QCReport : Type := mkQCReport {
  overall_score : Q;
  status : string;
  problems : list QCProblem
}.

(** A QC report as a JSON dictionary: every key may be missing. *)
Record QCReportData : Type := mkQCReportData {
  data_overall_score : option Q;
  data_status : option string;
  data_problems : option (list QCProblem)
}.

(** [QCReport.model_dump()] *)
Definition model_dump (r : QCReport) : QCReportData :=
  mkQCReportData (Some (overall_score r)) (Some (status r))
                 (Some (problems r)).

(** Building a [QCReport] from the dictionary: [overall_score] (between 0 and 100) and [status]
    are required, [problems] defaults to the empty list. *)
Definition QCReport_parse (d : QCReportData) : exn + QCReport :=
  match data_overall_score d, data_status d with
  | Some sc, Some st =>
      if Qle_bool 0 sc && Qle_bool sc 100
      then inr (mkQCReport sc st (default [] (data_problems d)))
      else inl (ValidationError "overall_score")
  | None, _ => inl (ValidationError "overall_score")
  | _, None => inl (ValidationError "status")
  end.

(** Truth value of the dictionary: empty dictionaries are falsy. *)
Definition data_truthy (d : QCReportData) : bool :=
  bool_decide (is_Some (data_overall_score d))
  || bool_decide (is_Some (data_status d))
  || bool_decide (is_Some (data_problems d)).

(** [ContentBlockResponse].  [content_html], [generation_params] and the
    time stamps are not read by the workflow and are left out.  The model
    has no field [project_id]. *)
Record ContentBlockResponse : Type := mkBlock {
  block_id : string;
  version_id : string;
  block_type : string;
  content_latex : string;
  source_llm : option string;
  qc_report : option QCReportData;
  block_status : string;
  refinement_attempts : Z;
  error_message : option string
}.

(** [ContentBlockUpdate]: the body of a PUT on a content block. *)
Record ContentBlockUpdate : Type := mkBlockUpdate {
  upd_content_latex : option string;
  upd_source_llm : option string;
  upd_qc_report : option QCReportData;
  upd_status : option string;
  upd_refinement_attempts : option Z;
  upd_error_message : option string
}.

Definition status_update (s : string) : ContentBlockUpdate :=
  mkBlockUpdate None None None (Some s) None None.

Record ProjectResponse : Type := mkProject {
  project_id : string;
  project_mode : string;
  project_status : string;
  current_step : option string
}.

Record DocumentResponse : Type := mkDocument {
  document_id : string;
  current_version_id : option string
}.

(** The tree [content_structure] of a document version: chapters,
    sections and block references; each key may be missing. *)
Record BlockInfo : Type := mkBlockInfo {
  info_block_id : option string;
  info_block_type : option string
}.

Record SectionInfo : Type := mkSectionInfo {
  section_id : option string;
  section_blocks : option (list BlockInfo)
}.

Record ChapterInfo : Type := mkChapterInfo {
  chapter_id : option string;
  chapter_title : option string;
  chapter_sections : option (list SectionInfo)
}.

Record ContentStructure : Type := mkStructure {
  chapters : option (list ChapterInfo)
}.

Record DocumentVersionResponse : Type := mkVersion {
  dv_version_id : string;
  content_structure : ContentStructure
}.

Record TaskParameters : Type := mkTaskParameters {
  param_block_id : option string;
  param_document_version_id : option string
}.

Record WorkflowTaskResponse : Type := mkTask {
  task_id : string;
  task_project_id : string;
  task_type : string;
  parameters : TaskParameters;
  task_status : string;
  completed_at : option Z;
  task_error_message : option string
}.

(** Feedback handed to a refinement: a QC report or the user's own. *)
Inductive Feedback : Type :=
| QCFeedback (report : QCReportData)
| UserFeedback (fields : list (string * string)).

(** [WorkflowSignal] (declared in api-gateway/api/v1/schemas.py). *)
Record WorkflowSignal : Type := mkSignal {
  signal_type : string;
  signal_block_id : option string;
  feedback : option (list (string * string))
}.

(** [Settings]: the two options the workflow reads. *)
Record Settings : Type := mkSettings {
  QC_VALIDATION_THRESHOLD : Q;
  MAX_REFINEMENT_ATTEMPTS : Z
}.

Definition get_settings : Settings := mkSettings 70 5.

End Models.

(** ** The world the workflow service acts on *)

Module Runtime.
Import Models.

(** A task handed to Celery by [apply_async] or [delay]. *)
Record CeleryCall : Type := mkCall {
  call_task : string;
  call_args : list string;
  call_feedback : option Feedback;
  call_is_refinement : bool;
  call_queue : option string
}.

(** The two info-level lines the state machine logs: they are the trace of
    the machines that were built and of the transitions that were taken. *)
Inductive LogRecord : Type :=
| FsmInitialised (block state mode : string)
| FsmTransition (block old_state new_state event mode : string).

Record World : Type := mkWorld {
  projects : gmap string ProjectResponse;
  documents : gmap string DocumentResponse;
  document_versions : gmap string DocumentVersionResponse;
  content_blocks : gmap string ContentBlockResponse;
  workflow_tasks : gmap string WorkflowTaskResponse;
  celery_queue : list CeleryCall;
  fsm_log : list LogRecord
}.

Definition set_projects (f : gmap string ProjectResponse -> gmap string ProjectResponse)
    (w : World) : World :=
  mkWorld (f (projects w)) (documents w) (document_versions w)
          (content_blocks w) (workflow_tasks w) (celery_queue w)
          (fsm_log w).

Definition set_content_blocks
    (f : gmap string ContentBlockResponse -> gmap string ContentBlockResponse)
    (w : World) : World :=
  mkWorld (projects w) (documents w) (document_versions w)
          (f (content_blocks w)) (workflow_tasks w) (celery_queue w)
          (fsm_log w).

Definition push_celery_call (c : CeleryCall) (w : World) : World :=
  mkWorld (projects w) (documents w) (document_versions w)
          (content_blocks w) (workflow_tasks w) (celery_queue w ++ [c])
          (fsm_log w).

Definition push_log (r : LogRecord) (w : World) : World :=
  mkWorld (projects w) (documents w) (document_versions w)
          (content_blocks w) (workflow_tasks w) (celery_queue w)
          (fsm_log w ++ [r]).

(** The monad of the service code: a state of type [World], and either an
    exception or a value.  The state reached before a [raise] is kept. *)
Definition M (A : Type) : Type := World -> (exn + A) * World.

Definition ret {A : Type} (a : A) : M A := fun w => (inr a, w).

Definition bind {A B : Type} (m : M A) (f : A -> M B) : M B := fun w =>
  match m w with
  | (inr a, w') => f a w'
  | (inl e, w') => (inl e, w')
  end.

Declare Scope M_scope.
Delimit Scope M_scope with M.
Notation "x ← y ; z" := (bind y (fun x : _ => z))
  (at level 20, y at level 100, z at level 200, only parsing) : M_scope.
Notation "' x ← y ; z" := (bind y (fun x : _ => z))
  (at level 20, x pattern, y at level 100, z at level 200, only parsing)
  : M_scope.
Notation "y ;; z" := (bind y (fun _ => z))
  (at level 100, z at level 200, only parsing, right associativity)
  : M_scope.
Open Scope M_scope.

Definition raise {A : Type} (e : exn) : M A := fun w => (inl e, w).

Definition lift {A : Type} (r : exn + A) : M A := fun w => (r, w).

Definition get_world : M World := fun w => (inr w, w).

Definition modify (f : World -> World) : M unit := fun w => (inr tt, f w).

(** [try: body except Exception as e: handler e] *)
Definition try_except {A : Type} (body : M A) (handler : exn -> M A) : M A :=
  fun w =>
    match body w with
    | (inr a, w') => (inr a, w')
    | (inl e, w') => handler e w'
    end.

Definition apply_async (c : CeleryCall) : M unit := modify (push_celery_call c).

(** Truth value of an optional Python string. *)
Definition truthy_opt (s : option string) : bool :=
  match s with Some s => StateMachine.truthy s | None => false end.

(** *** The persistence service, seen from its clients *)

Definition apply_block_update (u : ContentBlockUpdate) (b : ContentBlockResponse)
  : ContentBlockResponse :=
  mkBlock (block_id b) (version_id b) (block_type b)
    (default (content_latex b) (upd_content_latex u))
    (from_option Some (source_llm b) (upd_source_llm u))
    (from_option Some (qc_report b) (upd_qc_report u))
    (default (block_status b) (upd_status u))
    (default (refinement_attempts b) (upd_refinement_attempts u))
    (from_option Some (error_message b) (upd_error_message u)).

(** Modelled from the spec: the persistence service's internal routes are
    not among the sources; [PUT /internal/content-blocks/{id}] is the
    repository operation update_block of §4.1: it changes the fields of
    the body on the stored block and answers 404 ([None]) when there is no
    such block.  The stored status is a free string. *)
Definition put_content_block (id : string) (u : ContentBlockUpdate) (w : World)
  : option World :=
  match content_blocks w !! id with
  | Some b => Some (set_content_blocks <[id := apply_block_update u b]> w)
  | None => None
  end.

(** Modelled from the spec: [PUT /internal/projects/{id}], the repository
    operation update_project of §4.1, with the status and, when given, the
    current step. *)
Definition put_project (id status : string) (step : option string) (w : World)
  : option World :=
  match projects w !! id with
  | Some p =>
      Some (set_projects
              <[id := mkProject (project_id p) (project_mode p) status
                        (from_option Some (current_step p) step)]> w)
  | None => None
  end.

(** Modelled from the spec: [GET /internal/content-blocks/version/{id}],
    the repository operation list_blocks_by_version of §4.1. *)
Definition blocks_of_version (vid : string) (w : World)
  : list ContentBlockResponse :=
  filter (fun b => version_id b = vid) (map_to_list (content_blocks w)).*2.

(** *** workflow/state_manager.py *)

Definition get_project_state (pid : string) : M ProjectResponse := fun w =>
  match projects w !! pid with
  | Some p => (inr p, w)
  | None => (inl (NotFoundException pid), w)
  end.


Definition get_content_block_state (bid : string) : M ContentBlockResponse :=
  fun w =>
    match content_blocks w !! bid with
    | Some b => (inr b, w)
    | None => (inl (NotFoundException bid), w)
    end.

Definition update_content_block_state (bid : string) (u : ContentBlockUpdate)
  : M unit := fun w =>
  match put_content_block bid u w with
  | Some w' => (inr tt, w')
  | None => (inl (NotFoundException bid), w)
  end.




(** *** The state machine, with its log lines *)

Definition new_fsm (initial_state mode block project : string)
  : M StateMachine.ContentBlockStateMachine :=
  fsm ← lift (StateMachine.init initial_state mode block project);
  modify (push_log (FsmInitialised block initial_state mode));;
  ret fsm.

(** [fsm.transition(event)]; the machine is used once, its new state is
    the returned value. *)
Definition fsm_transition (fsm : StateMachine.ContentBlockStateMachine)
    (event : string) : M string :=
  match StateMachine.transition fsm event with
  | (inl e, _) => raise e
  | (inr new_state, _) =>
      modify (push_log
        (FsmTransition (StateMachine.block_id fsm)
           (StateMachine.current_state fsm) new_state event
           (StateMachine.mode fsm)));;
      ret new_state
  end.

Definition EVENTS (key : string) : M string :=
  lift (StateMachine.EVENTS_getitem key).

(** *** Helpers that [AutonomousLogic] and [SupervisorLogic] both define *)

Definition _get_project_and_block (pid : string) (bid : option string)
  : M (ProjectResponse * option ContentBlockResponse) := fun w =>
  match projects w !! pid with
  | None => (inl (NotFoundException pid), w)
  | Some project =>
      match bid with
      | None => (inr (project, None), w)
      | Some bid =>
          match content_blocks w !! bid with
          | Some block => (inr (project, Some block), w)
          | None => (inl (NotFoundException bid), w)
          end
      end
  end.

(** The answer of the PUT is not inspected: a missing row changes
    nothing. *)
Definition _update_project_status (pid status : string)
    (step : option string) : M unit :=
  modify (fun w =>
    default w (put_project pid status
                 (if truthy_opt step then step else None) w)).

Definition _update_block_status (bid status : string)
    (qc : option QCReportData) (attempts : option Z)
    (err : option string) : M unit :=
  modify (fun w =>
    default w (put_content_block bid
      (mkBlockUpdate None None
         (match qc with
          | Some d => if data_truthy d then Some d else None
          | None => None
          end)
         (Some status) attempts
         (if truthy_opt err then err else None)) w)).

End Runtime.

(** ** workflow/autonomous_logic.py *)

Module AutonomousLogic.
Import Models Runtime.
Open Scope M_scope.

Definition processed_statuses : list string :=
  [ "validated"; "generation_failed"; "refinement_failed"; "archived" ].

Definition assemble_call (vid : string) : CeleryCall :=
  mkCall "assemble_document_task" [vid] None false (Some "export").

Definition refinement_call (bid : string) (fb : Feedback) : CeleryCall :=
  mkCall "generate_content_block_task" [bid] (Some fb) true
         (Some "generation").

(** [_create_new_block_version_for_refinement]: the original block is
    archived and the document version is read; the body of the POST is then
    [original_block.model_dump(exclude_unset=True)], in which [version_id]
    is still a [UUID], and the JSON encoder of the client raises
    [TypeError] on it: no block is created. *)
Definition _create_new_block_version_for_refinement
    (original_block : ContentBlockResponse) (new_content_latex : string)
  : M ContentBlockResponse :=
  _update_block_status (block_id original_block) "archived" None None None;;
  w ← get_world;
  match document_versions w !! version_id original_block with
  | None => raise (HTTPStatusError (version_id original_block))
  | Some _ => raise (TypeError "UUID")
  end.

Definition _advance_autonomous_plan (pid : string) : M unit :=
  _ ← _get_project_and_block pid None;
  w ← get_world;
  match documents w !! pid with
  | None => raise (HTTPStatusError pid)
  | Some document_data =>
      if truthy_opt (current_version_id document_data) then
        let vid := default "" (current_version_id document_data) in
        let all_blocks_processed :=
          forallb (fun b => bool_decide (block_status b ∈ processed_statuses))
                  (blocks_of_version vid w) in
        if all_blocks_processed then
          _update_project_status pid "completed"
            (Some "Plan autonome terminé");;
          apply_async (assemble_call vid);;
          _update_project_status pid "export_pending" None
        else ret tt
      else ret tt
  end.

Section WithSettings.
Variable settings : Settings.

Definition process_generated_block_result
    (pid bid : string) (qc_report : option QCReportData) : M unit :=
  '(project, block) ← _get_project_and_block pid (Some bid);
  if negb (bool_decide (project_mode project = "Autonome")) then
    raise (BadRequestException pid)
  else
    match block with
    | None => raise (NotFoundException bid)
    | Some block =>
        fsm ← new_fsm (block_status block) (project_mode project)
                (block_id block) (project_id project);
        match qc_report with
        | None => raise (AttributeError "get")
        | Some qc =>
            let qc_score := default 0%Q (data_overall_score qc) in
            let qc_threshold := QC_VALIDATION_THRESHOLD settings in
            let max_refinement_attempts :=
              MAX_REFINEMENT_ATTEMPTS settings in
            if bool_decide (data_status qc = Some "passed")
               && Qle_bool qc_threshold qc_score
            then
              event ← EVENTS "QC_PASSED";
              new_block_status ← fsm_transition fsm event;
              _update_block_status (block_id block) new_block_status
                (Some qc) None None;;
              _advance_autonomous_plan pid
            else if bool_decide
                      (refinement_attempts block < max_refinement_attempts)%Z
            then
              event ← EVENTS "QC_FAILED";
              new_block_status ← fsm_transition fsm event;
              _update_block_status (block_id block) new_block_status
                (Some qc) None None;;
              new_block ← _create_new_block_version_for_refinement
                            block (content_latex block);
              apply_async
                (refinement_call (block_id new_block) (QCFeedback qc));;
              status ← EVENTS "REFINEMENT_STARTED";
              _update_block_status (block_id new_block) status
                None None None
            else
              event ← EVENTS "REFINEMENT_FAILED";
              new_block_status ← fsm_transition fsm event;
              _update_block_status (block_id block) new_block_status
                (Some qc) None
                (Some "Max tentatives de raffinement atteintes.");;
              _advance_autonomous_plan pid
        end
    end.

End WithSettings.

End AutonomousLogic.

(** ** workflow/supervisor_logic.py *)

Module SupervisorLogic.
Import Models Runtime.
Open Scope M_scope.

Definition handle_user_signal (pid : string) (signal : WorkflowSignal)
  : M ProjectResponse :=
  '(project, block) ← _get_project_and_block pid (signal_block_id signal);
  if negb (bool_decide (project_mode project = "Supervisé")) then
    raise (BadRequestException pid)
  else
    fsm ← match block with
          | Some block =>
              fsm ← new_fsm (block_status block) (project_mode project)
                      (block_id block) (project_id project);
              ret (Some (fsm, block))
          | None => ret None
          end;
    if bool_decide (signal_type signal = "VALIDATED") then
      match fsm with
      | None => raise (BadRequestException "VALIDATED")
      | Some (fsm, block) =>
          event ← EVENTS "USER_VALIDATE";
          new_block_status ← fsm_transition fsm event;
          _update_block_status (block_id block) new_block_status
            None None None;;
          ret project
      end
    else if bool_decide (signal_type signal = "REDO") then
      match fsm, feedback signal with
      | Some (fsm, block), Some (_ :: _ as fb) =>
          event ← EVENTS "USER_REDO";
          new_block_status ← fsm_transition fsm event;
          _update_block_status (block_id block) new_block_status
            None None None;;
          (* [signal.feedback] is a dictionary: it has no [model_dump] *)
          raise (AttributeError "model_dump")
      | _, _ => raise (BadRequestException "REDO")
      end
    else if bool_decide (signal_type signal = "ALL_APPROVED") then
      if negb (bool_decide (project_status project = "completed")) then
        raise (BadRequestException "ALL_APPROVED")
      else
        w ← get_world;
        match documents w !! pid with
        | None => raise (HTTPStatusError pid)
        | Some document_data =>
            if truthy_opt (current_version_id document_data) then
              apply_async
                (AutonomousLogic.assemble_call
                   (default "" (current_version_id document_data)));;
              _update_project_status pid "export_pending" None;;
              ret project
            else raise (NotFoundException pid)
        end
    else raise (BadRequestException (signal_type signal)).

End SupervisorLogic.

(** ** tasks/workflow_tasks.py *)

Module WorkflowTasks.
Import Models Runtime.
Open Scope M_scope.

Definition run_qc_call (bid : string) : CeleryCall :=
  mkCall "run_qc_task" [bid] None false None.

(** The [except Exception] clause of the two tasks: the block is marked
    with [EVENTS["CRITICAL_FAIL"]] and an error message, and the exception
    is raised again.  [message] is the fixed part of the error message; the
    text of the exception, which the code appends to it, is left out. *)
Definition critical_handler (message : string) (bid : string) (e : exn)
  : M unit :=
  status ← EVENTS "CRITICAL_FAIL";
  update_content_block_state bid
    (mkBlockUpdate None None None (Some status) None (Some message));;
  raise e.

(** [current_block.project_id]: the model [ContentBlockResponse] has no
    field of that name (shared/models.py), so the attribute access of the
    two tasks (workflow_tasks.py, lines 74 and 180) raises
    [AttributeError]. *)
Definition getattr_project_id (current_block : ContentBlockResponse)
  : M string :=
  raise (AttributeError "project_id").

(** [generate_content_block_task]; [generated_content] is the answer of
    the generation (or interaction) service, and the clauses for HTTP and
    network errors of that call are outside the model. *)
Definition generate_content_block_task (bid : string)
    (fb : option Feedback) (is_refinement : bool)
    (generated_content : string) : M unit :=
  try_except
    (current_block ← get_content_block_state bid;
     current_block_project_id ← getattr_project_id current_block;
     project ← get_project_state current_block_project_id;
     started ← EVENTS (if negb is_refinement then "GENERATE_STARTED"
                       else "REFINEMENT_STARTED");
     update_content_block_state bid (status_update started);;
     success ← EVENTS (if negb is_refinement then "GENERATE_SUCCESS"
                       else "REFINEMENT_SUCCESS");
     update_content_block_state bid
       (mkBlockUpdate (Some generated_content) (Some "unknown") None
          (Some success) None None);;
     apply_async (run_qc_call bid))
    (critical_handler "Erreur interne inattendue: " bid).

Section WithSettings.
Variable settings : Settings.

(** [run_qc_task]; [qc_report_data] is the dictionary that the QC service
    answers with. *)
Definition run_qc_task (bid : string) (qc_report_data : QCReportData)
  : M unit :=
  try_except
    (current_block ← get_content_block_state bid;
     current_block_project_id ← getattr_project_id current_block;
     project ← get_project_state current_block_project_id;
     started ← EVENTS "QC_STARTED";
     update_content_block_state bid (status_update started);;
     qc_report ← lift (QCReport_parse qc_report_data);
     finished ← EVENTS (if bool_decide (status qc_report = "passed")
                        then "QC_PASSED" else "QC_FAILED");
     update_content_block_state bid
       (mkBlockUpdate None None (Some (model_dump qc_report))
          (Some finished) None None);;
     if bool_decide (project_mode project = "Autonome") then
       AutonomousLogic.process_generated_block_result settings
         (project_id project) bid (Some qc_report_data)
     else ret tt)
    (critical_handler "Erreur interne inattendue lors du QC: " bid).

End WithSettings.

End WorkflowTasks.

(** ** api/internal/endpoints.py *)

Module Endpoints.
Import Models Runtime.
Open Scope M_scope.



Section WithSettings.
Variable settings : Settings.



End WithSettings.

End Endpoints.

(** ** workflow/planner.py *)

Module Planner.
Import Models.

Inductive PlanStep : Type :=
| Checkpoint (checkpoint_type : string) (chapter title : option string)
| GenerateBlock (block block_type section chapter : option string)
| FinalAssembly (document_version_id : string).

Definition section_steps (chapter : ChapterInfo) (section : SectionInfo)
  : list PlanStep :=
  match section_blocks section with
  | Some blocks =>
      map (fun block_info =>
             GenerateBlock (info_block_id block_info)
               (info_block_type block_info) (section_id section)
               (chapter_id chapter)) blocks
  | None => []
  end.

Definition chapter_steps (chapter : ChapterInfo) : list PlanStep :=
  Checkpoint "chapter_start" (chapter_id chapter) (chapter_title chapter)
  :: match chapter_sections chapter with
     | Some sections => flat_map (section_steps chapter) sections
     | None => []
     end.

Definition generate_initial_plan (document_structure : ContentStructure)
    (project_id document_version_id : string) : list PlanStep :=
  match chapters document_structure with
  | Some chapters => flat_map chapter_steps chapters
  | None => []
  end ++ [FinalAssembly document_version_id].

(** [plan[i]] for a Python list: negative indices count from the end. *)
Definition getitem {A : Type} (l : list A) (i : Z) : exn + A :=
  let n := Z.of_nat (length l) in
  let j := if bool_decide (i < 0)%Z then (i + n)%Z else i in
  if bool_decide (j < 0)%Z then inl IndexError
  else match l !! Z.to_nat j with
       | Some x => inr x
       | None => inl IndexError
       end.

(** [next((b for b in all_content_blocks if str(b.block_id) == id), None)] *)
Definition find_block (all_content_blocks : list ContentBlockResponse)
    (id : option string) : option ContentBlockResponse :=
  match id with
  | Some id =>
      snd <$> list_find (fun b => block_id b = id) all_content_blocks
  | None => None
  end.

Definition skipped_statuses : list string :=
  [ "validated"; "generation_failed"; "refinement_failed"; "archived" ].

(** The test that makes [get_next_task_in_plan] move on to the next
    step. *)
Definition already_processed (all_content_blocks : list ContentBlockResponse)
    (step : PlanStep) : bool :=
  match step with
  | GenerateBlock id _ _ _ =>
      match find_block all_content_blocks id with
      | Some current_block =>
          bool_decide (block_status current_block ∈ skipped_statuses)
      | None => false
      end
  | _ => false
  end.

(** The recursion of [get_next_task_in_plan] on a plan that is already
    built; [fuel] bounds the number of nested calls. *)
Fixpoint next_task_from (fuel : nat) (plan : list PlanStep)
    (current_plan_index : Z) (all_content_blocks : list ContentBlockResponse)
  : option (exn + option PlanStep) :=
  match fuel with
  | O => None
  | S fuel =>
      if bool_decide (current_plan_index >= Z.of_nat (length plan))%Z
      then Some (inr None)
      else
        match getitem plan current_plan_index with
        | inl e => Some (inl e)
        | inr next_step =>
            if already_processed all_content_blocks next_step
            then next_task_from fuel plan (current_plan_index + 1)
                   all_content_blocks
            else Some (inr (Some next_step))
        end
  end.

(** [get_next_task_in_plan]: the plan is generated again at every call,
    from the same arguments; the number of nested calls is at most the
    distance of the index to the end of the plan, plus one. *)
Definition get_next_task_in_plan (project : ProjectResponse)
    (document_version : DocumentVersionResponse) (current_plan_index : Z)
    (all_content_blocks : list ContentBlockResponse)
  : option (exn + option PlanStep) :=
  let plan := generate_initial_plan (content_structure document_version)
                (project_id project) (dv_version_id document_version) in
  next_task_from
    (S (Z.to_nat (Z.of_nat (length plan) - current_plan_index)))
    plan current_plan_index all_content_blocks.

End Planner.

(** ** qc-service/qc/score_calculator.py *)

Module ScoreCalculator.
Import Models.
Open Scope Q_scope.

(** Scores: Python's floats are taken as rationals, so the arithmetic of
    the model is exact where the code rounds; there is no NaN. *)

(** A report of one of the three analysers, as a dictionary. *)
Record SubReport : Type := mkSubReport {
  report_problems : option (list QCProblem);
  confidence : option Q;
  score : option Q
}.

Definition weight_math : Q := 5 # 10.
Definition weight_pedagogic : Q := 3 # 10.
Definition weight_coherence : Q := 2 # 10.

Definition threshold_passed : Q := 90.
Definition threshold_partial_success : Q := 60.

(** [self.severity_penalties.get(severity, 0)] *)
Definition severity_penalty (severity : string) : Q :=
  if bool_decide (severity = "critical") then 50
  else if bool_decide (severity = "major") then 20
  else if bool_decide (severity = "minor") then 5
  else 0.

Definition Qmin (a b : Q) : Q := if Qle_bool a b then a else b.
Definition Qmax (a b : Q) : Q := if Qle_bool b a then a else b.

(** The loop that applies the penalties. *)
Definition apply_penalties (problems : list QCProblem) (overall_score : Q)
  : Q :=
  fold_left
    (fun overall_score problem =>
       let overall_score :=
         overall_score - severity_penalty (severity problem) in
       if bool_decide (severity problem = "critical")
       then Qmin overall_score 20
       else overall_score)
    problems overall_score.

Definition calculate_overall_score
    (math_report pedagogic_report coherence_report : SubReport)
  : QCReport :=
  let problems :=
    (default [] (report_problems math_report)
     ++ default [] (report_problems pedagogic_report)
     ++ default [] (report_problems coherence_report))%list in
  let math_score := default 0 (confidence math_report) * 100 in
  let pedagogic_score := default 0 (score pedagogic_report) in
  let coherence_score := default 0 (score coherence_report) in
  let overall_score :=
    weight_math * math_score + weight_pedagogic * pedagogic_score
    + weight_coherence * coherence_score in
  let overall_score := apply_penalties problems overall_score in
  let overall_score := Qmax 0 (Qmin 100 overall_score) in
  let report_status :=
    if Qle_bool threshold_passed overall_score then "passed"
    else if Qle_bool threshold_partial_success overall_score
    then "partial_success"
    else "failed" in
  let report_status :=
    if existsb (fun p => bool_decide (severity p = "critical")) problems
    then "failed" else report_status in
  mkQCReport overall_score report_status problems.

End ScoreCalculator.

(** ** The transition table, as a list of triples *)

Module Tables.

(** The entries of the dictionary [transitions], one triple
    (source state, event, target state) per entry. *)
Definition base_table : list (string * string * string) :=
  [ ("pending_generation", "GENERATE_STARTED", "generation_in_progress");
    ("generation_in_progress", "GENERATE_SUCCESS", "qc_pending");
    ("generation_in_progress", "GENERATE_FAILED", "generation_failed");
    ("generation_in_progress", "CRITICAL_FAIL", "critical_error");
    ("generation_failed", "ARCHIVE", "archived");
    ("qc_pending", "QC_STARTED", "qc_in_progress");
    ("qc_in_progress", "QC_PASSED", "qc_passed");
    ("qc_in_progress", "QC_FAILED", "qc_failed");
    ("qc_in_progress", "CRITICAL_FAIL", "critical_error");
    ("qc_passed", "USER_VALIDATE", "validated");
    ("qc_passed", "ARCHIVE", "archived");
    ("qc_passed", "REFINEMENT_NEEDED", "refinement_pending");
    ("qc_failed", "REFINEMENT_NEEDED", "refinement_pending");
    ("qc_failed", "USER_REDO", "refinement_pending");
    ("refinement_pending", "REFINEMENT_STARTED", "refinement_in_progress");
    ("refinement_in_progress", "REFINEMENT_SUCCESS", "qc_pending");
    ("refinement_in_progress", "REFINEMENT_FAILED", "refinement_failed");
    ("refinement_in_progress", "CRITICAL_FAIL", "critical_error");
    ("refinement_failed", "ARCHIVE", "archived");
    ("pending_validation", "USER_VALIDATE", "validated");
    ("pending_validation", "USER_REDO", "refinement_pending");
    ("validated", "ARCHIVE", "archived");
    ("critical_error", "ARCHIVE", "archived") ].

(** The entries that the two modes add in [_get_allowed_transitions]. *)
Definition mode_table (mode : string) : list (string * string * string) :=
  if bool_decide (mode = "Supervisé") then
    [ ("qc_passed", "QC_PASSED", "pending_validation");
      ("qc_failed", "QC_FAILED", "refinement_pending") ]
  else if bool_decide (mode = "Autonome") then
    [ ("qc_passed", "QC_PASSED", "validated");
      ("qc_failed", "QC_FAILED", "refinement_pending") ]
  else [].

(** The transition table of the code in the given mode. *)
Definition code_table (mode : string) : list (string * string * string) :=
  base_table ++ mode_table mode.

(** The triples of a dictionary of dictionaries given by its items. *)
Definition triples (items : list (string * list (string * string)))
  : list (string * string * string) :=
  flat_map (fun '(s, row) => map (fun '(e, t) => (s, e, t)) row) items.

End Tables.

(** ** The transition table of the specification (§4.2)

    The table as the specification words it, with the events under the
    names the code gives them (generate_started is GENERATE_STARTED, and so
    on).  The cell of qc_passed from qc_in_progress depends on the mode: the
    target is validated in autonomous mode and pending_validation in
    supervised mode; qc_passed, which the cell names, is listed too.  The
    guard of user_validate from qc_passed (supervised mode) restricts that
    entry to the supervised mode. *)

Module Spec.


(** The terminal states the planner is specified to skip (§4.6 and the
    glossary). *)
Definition terminal_states : list string :=
  [ "validated"; "refinement_failed"; "critical_error" ].

End Spec.

(** ** Worlds and reports used as concrete inputs *)

Module Examples.
Import Models Runtime.

Definition project_in (mode : string) : ProjectResponse :=
  mkProject "p1" mode "in_progress" None.

Definition block_in (status : string) (attempts : Z) : ContentBlockResponse :=
  mkBlock "b1" "v1" "definition" "x^2" None None status attempts None.

Definition one_block_structure : ContentStructure :=
  mkStructure
    (Some [ mkChapterInfo (Some "chap1") (Some "Chapitre 1")
              (Some [ mkSectionInfo (Some "sec1.1")
                        (Some [ mkBlockInfo (Some "b1")
                                  (Some "definition") ]) ]) ]).

Definition version_v1 : DocumentVersionResponse :=
  mkVersion "v1" one_block_structure.

(** A project [p1] in the given mode, whose document has the current
    version [v1], with the single block [b1]. *)
Definition world_with (mode status : string) (attempts : Z) : World :=
  mkWorld {[ "p1" := project_in mode ]}
          {[ "p1" := mkDocument "d1" (Some "v1") ]}
          {[ "v1" := version_v1 ]}
          {[ "b1" := block_in status attempts ]}
          ∅ [] [].

Definition report_passed (score : Q) : QCReportData :=
  mkQCReportData (Some score) (Some "passed") (Some []).

Definition report_failed (score : Q) : QCReportData :=
  mkQCReportData (Some score) (Some "failed")
    (Some [ mkQCProblem "math_error" "major" "erreur de signe" None None ]).

End Examples.

(** ** Worlds reached by the service code *)

Module Outcomes.
Import Models Runtime AutonomousLogic.

(** The world after the three effects of a finished plan. *)
Definition finished (pid vid : string) (w : World) : World :=
  default
    (push_celery_call (assemble_call vid)
       (default w (put_project pid "completed"
                     (Some "Plan autonome terminé") w)))
    (put_project pid "export_pending" None
       (push_celery_call (assemble_call vid)
          (default w (put_project pid "completed"
                        (Some "Plan autonome terminé") w)))).

(** The event that [process_generated_block_result] chooses for a
    report. *)
Definition chosen_event (settings : Settings) (block : ContentBlockResponse)
    (qc : QCReportData) : string :=
  if bool_decide (data_status qc = Some "passed")
     && Qle_bool (QC_VALIDATION_THRESHOLD settings)
          (default 0%Q (data_overall_score qc))
  then "QC_PASSED"
  else if bool_decide
            (refinement_attempts block < MAX_REFINEMENT_ATTEMPTS settings)%Z
  then "QC_FAILED"
  else "REFINEMENT_FAILED".

End Outcomes.

(** ** Sequences of calls on one state machine *)

Module Sequences.
Import StateMachine.

(** [fsm.transition(e1); fsm.transition(e2); ...]: the calls of the usage
    example that closes state_machine.py, made one after the other on the
    same machine; the first exception ends the run. *)
Fixpoint transition_all (fsm : ContentBlockStateMachine)
    (events : list string) : (exn + unit) * ContentBlockStateMachine :=
  match events with
  | [] => (inr tt, fsm)
  | event :: events =>
      match transition fsm event with
      | (inr _, fsm) => transition_all fsm events
      | (inl e, fsm) => (inl e, fsm)
      end
  end.

End Sequences.

(** ** Views of a plan and of a document structure *)

Module PlanViews.
Import Models Planner.

(** The [block_id] entry of a generate_block step. *)
Definition step_block (step : PlanStep) : option (option string) :=
  match step with
  | GenerateBlock id _ _ _ => Some id
  | _ => None
  end.

(** The block references of a structure, chapter after chapter and section
    after section, as the three nested loops of [generate_initial_plan]
    meet them. *)
Definition structure_blocks (document_structure : ContentStructure)
  : list BlockInfo :=
  flat_map
    (fun chapter =>
       flat_map (fun section => default [] (section_blocks section))
         (default [] (chapter_sections chapter)))
    (default [] (chapters document_structure)).

End PlanViews.

(** ** workflow/transitions.py *)

Module Transitions.
Import StateMachine Models.

(** The action functions of the module. *)
Inductive Action : Type :=
| action_generate_success
| action_qc_passed_autonomous
| action_qc_passed_supervised
| action_qc_failed
| action_user_validate
| action_user_redo
| action_refinement_success
| action_failed_state.

#[global] Instance Action_eq_dec : EqDecision Action.
Proof. solve_decision. Defined.

(** The keyword arguments of a call, as far as the actions read them:
    [qc_report] may be missing, or passed as [None], or passed as a
    dictionary; of [user_feedback] and [error_message] only the presence
    matters. *)
Record Kwargs : Type := mkKwargs {
  kw_qc_report : option (option QCReportData);
  kw_user_feedback : bool;
  kw_error_message : bool
}.

(** [qc_report.get('overall_score')] inside the log line of an action. *)
Definition read_score (qc_report : option QCReportData) : exn + unit :=
  match qc_report with
  | Some _ => inr tt
  | None => inl (AttributeError "get")
  end.

(** [await action(fsm, block, **kwargs)]: a parameter of the action that
    the keywords do not give is a [TypeError]; the actions only log. *)
Definition call_action (action : Action) (kwargs : Kwargs) : exn + unit :=
  match action with
  | action_generate_success | action_user_validate
  | action_refinement_success => inr tt
  | action_qc_passed_autonomous | action_qc_passed_supervised
  | action_qc_failed =>
      match kw_qc_report kwargs with
      | Some qc_report => read_score qc_report
      | None => inl (TypeError "qc_report")
      end
  | action_user_redo =>
      if kw_user_feedback kwargs then inr tt
      else inl (TypeError "user_feedback")
  | action_failed_state =>
      if kw_error_message kwargs then inr tt
      else inl (TypeError "error_message")
  end.

(** The entries of the dictionary literal [TRANSITION_ACTIONS], with the
    name under which each key reads [EVENTS]. *)
Definition TRANSITION_ACTIONS_rows : list (string * string * option Action) :=
  [ ("generation_in_progress", "GENERATE_SUCCESS",
       Some action_generate_success);
    ("qc_in_progress", "QC_PASSED", None);
    ("qc_in_progress", "QC_FAILED", Some action_qc_failed);
    ("pending_validation", "USER_VALIDATE", Some action_user_validate);
    ("pending_validation", "USER_REDO", Some action_user_redo);
    ("refinement_in_progress", "REFINEMENT_SUCCESS",
       Some action_refinement_success);
    ("generation_in_progress", "GENERATE_FAILED", Some action_failed_state);
    ("refinement_in_progress", "REFINEMENT_FAILED",
       Some action_failed_state);
    ("generation_in_progress", "CRITICAL_FAIL", Some action_failed_state);
    ("qc_in_progress", "CRITICAL_FAIL", Some action_failed_state);
    ("refinement_in_progress", "CRITICAL_FAIL", Some action_failed_state) ].

(** The items of the dictionary: each key is the pair of a state and of
    [EVENTS[name]]; a missing name would be a [KeyError] when the module
    is loaded. *)
Fixpoint items_of (rows : list (string * string * option Action))
  : exn + list (string * string * option Action) :=
  match rows with
  | [] => inr []
  | (state, name, action) :: rows =>
      match EVENTS_getitem name with
      | inl e => inl e
      | inr event =>
          match items_of rows with
          | inl e => inl e
          | inr items => inr ((state, event, action) :: items)
          end
      end
  end.

(** In a dictionary literal the last entry of a key is the one kept. *)
Definition TRANSITION_ACTIONS
  : exn + gmap (string * string) (option Action) :=
  match items_of TRANSITION_ACTIONS_rows with
  | inl e => inl e
  | inr items => inr (list_to_map (reverse items))
  end.

(** [get_qc_passed_action], called with [kwargs.get('qc_report')] as its
    third argument and no keyword: the action that ran, if one did. *)
Definition get_qc_passed_action (fsm : ContentBlockStateMachine)
    (qc_report : option QCReportData) : exn + option Action :=
  if bool_decide (mode fsm = "Autonome") then
    match read_score qc_report with
    | inl e => inl e
    | inr _ => inr (Some action_qc_passed_autonomous)
    end
  else if bool_decide (mode fsm = "Supervisé") then
    match read_score qc_report with
    | inl e => inl e
    | inr _ => inr (Some action_qc_passed_supervised)
    end
  else inr None.

(** [execute_transition_action]: the action that ran, if one did. *)
Definition execute_transition_action (fsm : ContentBlockStateMachine)
    (event : string) (kwargs : Kwargs) : exn + option Action :=
  match TRANSITION_ACTIONS, EVENTS_getitem "QC_PASSED" with
  | inl e, _ | _, inl e => inl e
  | inr actions, inr qc_passed =>
      let action_func :=
        default None (actions !! (current_state fsm, event)) in
      if bool_decide (current_state fsm = "qc_in_progress")
         && bool_decide (event = qc_passed)
      then get_qc_passed_action fsm
             (default None (kw_qc_report kwargs))
      else
        match action_func with
        | Some action =>
            match call_action action kwargs with
            | inl e => inl e
            | inr _ => inr (Some action)
            end
        | None => inr None
        end
  end.

End Transitions.

(** ** shared/utils.py *)

Module Utils.

(** [s.replace(old, "")] for a pattern [old] that is not empty: the
    occurrences of [old] are removed from left to right, and the search
    goes on after each removed occurrence.  [skip] counts the characters
    of the current occurrence that are still to be dropped. *)
Fixpoint remove_from (skip : nat) (old s : string) : string :=
  match s with
  | EmptyString => EmptyString
  | String c s' =>
      match skip with
      | S skip => remove_from skip old s'
      | O =>
          if String.prefix old s
          then remove_from (String.length old - 1) old s'
          else String c (remove_from 0 old s')
      end
  end.

Definition replace_by_empty (old s : string) : string := remove_from 0 old s.

(** The backslash, character 92. *)
Definition backslash : Ascii.ascii :=
  Ascii.Ascii false false true true true false true false.

(** [sanitize_latex_input]: the three calls of [replace], in the order of
    the source. *)
Definition sanitize_latex_input (latex_string : string) : string :=
  let sanitized_string :=
    replace_by_empty (String backslash "input") latex_string in
  let sanitized_string :=
    replace_by_empty (String backslash "include") sanitized_string in
  let sanitized_string :=
    replace_by_empty (String backslash "write18") sanitized_string in
  sanitized_string.

End Utils.

(** * Properties *)

(** ** The state machine *)

Module StateMachineFacts.
Import StateMachine Tables.

Lemma triples_transitions_items : triples transitions_items = base_table.
Proof. reflexivity. Qed.

Lemma elem_of_triples items s row e t :
  (s, row) ∈ items -> (e, t) ∈ row -> (s, e, t) ∈ triples items.
Proof.
  intros Hrow Het. unfold triples.
  apply list_elem_of_In, in_flat_map. exists (s, row). split.
  - by apply list_elem_of_In.
  - apply in_map_iff. exists (e, t). split; [done|by apply list_elem_of_In].
Qed.

(** A successful lookup in the dictionary is an entry of the table. *)
Lemma transitions_get_Some s e t :
  transitions_get s e = Some t -> (s, e, t) ∈ base_table.
Proof.
  unfold transitions_get, transitions. intros H.
  destruct (list_to_map _ !! s) as [row|] eqn:Hs; simpl in H;
    [|by rewrite lookup_empty in H].
  apply elem_of_list_to_map_2, list_elem_of_fmap in Hs.
  destruct Hs as [[s' items] [Heq Hin]]. simpl in Heq.
  injection Heq as -> ->.
  apply elem_of_list_to_map_2 in H.
  rewrite <- triples_transitions_items. by eapply elem_of_triples.
Qed.

(** Every entry of the table is found by the lookup. *)
Lemma transitions_get_complete s e t :
  (s, e, t) ∈ base_table -> transitions_get s e = Some t.
Proof.
  unfold base_table. rewrite !elem_of_cons, elem_of_nil.
  intros H. repeat (destruct H as [H|H]; [by injection H as -> -> ->|]).
  done.
Qed.

Lemma transitions_get_iff s e t :
  transitions_get s e = Some t <-> (s, e, t) ∈ base_table.
Proof. split; [apply transitions_get_Some|apply transitions_get_complete]. Qed.

(** No target state of the table is the empty string. *)
Lemma base_table_truthy s e t : (s, e, t) ∈ base_table -> truthy t = true.
Proof.
  unfold base_table. rewrite !elem_of_cons, elem_of_nil.
  intros H. repeat (destruct H as [H|H]; [by injection H as -> -> ->|]).
  done.
Qed.

End StateMachineFacts.

Module TransitionFacts.
Import StateMachine Tables StateMachineFacts.

Lemma base_table_not_mode_cell s e t :
  (s, e, t) ∈ base_table ->
  ~ (s = "qc_passed" /\ e = "QC_PASSED")
  /\ ~ (s = "qc_failed" /\ e = "QC_FAILED").
Proof.
  unfold base_table. rewrite !elem_of_cons, elem_of_nil.
  intros H.
  repeat (destruct H as [H|H];
          [injection H as -> -> ->; split; intros [? ?]; discriminate|]).
  done.
Qed.

Lemma mode_table_cell m s e t :
  (s, e, t) ∈ mode_table m ->
  (s = "qc_passed" /\ e = "QC_PASSED") \/ (s = "qc_failed" /\ e = "QC_FAILED").
Proof.
  unfold mode_table. repeat case_bool_decide;
    rewrite ?elem_of_cons, elem_of_nil; naive_solver.
Qed.

(** The list computed when no mode-specific rule applies. *)
Lemma fallthrough_cases s e :
  (transitions_get s e = None /\ forall t, (s, e, t) ∉ base_table)
  \/ (exists t, transitions_get s e = Some t /\ truthy t = true
                /\ forall t', (s, e, t') ∈ base_table <-> t' = t).
Proof.
  destruct (transitions_get s e) as [t|] eqn:H.
  - right. exists t. split; [done|]. split.
    + eapply base_table_truthy, transitions_get_Some, H.
    + intros t'. rewrite <- transitions_get_iff, H. naive_solver.
  - left. split; [done|]. intros t Ht.
    apply transitions_get_complete in Ht. congruence.
Qed.

Lemma allowed_fallthrough fsm e :
  ~ (current_state fsm = "qc_passed" /\ e = "QC_PASSED") ->
  ~ (current_state fsm = "qc_failed" /\ e = "QC_FAILED") ->
  _get_allowed_transitions fsm e =
    match transitions_get (current_state fsm) e with
    | Some t => if truthy t then [t] else []
    | None => []
    end.
Proof.
  intros H1 H2. unfold _get_allowed_transitions.
  set (ft := match transitions_get _ _ with Some _ => _ | None => _ end).
  repeat case_bool_decide; cbn [andb]; try reflexivity; tauto.
Qed.

Lemma allowed_mode_cell m b p s e :
  (s = "qc_passed" /\ e = "QC_PASSED") \/ (s = "qc_failed" /\ e = "QC_FAILED") ->
  (_get_allowed_transitions (mkFSM s m b p) e = []
   /\ forall t, (s, e, t) ∉ mode_table m)
  \/ (exists t, _get_allowed_transitions (mkFSM s m b p) e = [t]
      /\ forall t', (s, e, t') ∈ mode_table m <-> t' = t).
Proof.
  unfold _get_allowed_transitions, mode_table. cbn [current_state mode].
  set (ft := match transitions_get _ _ with Some _ => _ | None => _ end).
  intros [[-> ->]|[-> ->]]; subst ft; repeat case_bool_decide; cbn [andb];
    try discriminate; try tauto.
  all: try (right; eexists; split; [reflexivity|]; intros t';
            rewrite !elem_of_cons, elem_of_nil; naive_solver).
  all: left; split; [reflexivity|]; intros t; apply not_elem_of_nil.
Qed.

(** What [_get_allowed_transitions] returns, against the table. *)
Lemma allowed_cases fsm e :
  (_get_allowed_transitions fsm e = []
   /\ forall t, (current_state fsm, e, t) ∉ code_table (mode fsm))
  \/ (exists t, _get_allowed_transitions fsm e = [t]
      /\ forall t', (current_state fsm, e, t') ∈ code_table (mode fsm)
                    <-> t' = t).
Proof.
  destruct fsm as [s m b p]. unfold code_table. cbn [current_state mode].
  destruct (decide ((s = "qc_passed" /\ e = "QC_PASSED")
                    \/ (s = "qc_failed" /\ e = "QC_FAILED"))) as [Hc|Hc].
  - assert (Hb : forall t, (s, e, t) ∉ base_table).
    { intros t Ht. apply base_table_not_mode_cell in Ht. tauto. }
    destruct (allowed_mode_cell m b p s e Hc) as [[-> Hno]|[t [-> Hiff]]].
    + left. split; [done|]. intros t. rewrite elem_of_app. naive_solver.
    + right. exists t. split; [done|]. intros t'. rewrite elem_of_app.
      specialize (Hiff t'). specialize (Hb t'). tauto.
  - assert (Hm : forall t, (s, e, t) ∉ mode_table m).
    { intros t Ht. apply mode_table_cell in Ht. tauto. }
    rewrite allowed_fallthrough by (cbn [current_state]; tauto).
    cbn [current_state].
    destruct (fallthrough_cases s e) as [[-> Hno]|[t [-> [-> Hiff]]]].
    + left. split; [done|]. intros t. rewrite elem_of_app. naive_solver.
    + right. exists t. split; [done|]. intros t'. rewrite elem_of_app.
      specialize (Hiff t'). specialize (Hm t'). tauto.
Qed.

Lemma transition_eq fsm e :
  transition fsm e =
    match _get_allowed_transitions fsm e with
    | [] => (inl (InvalidWorkflowStateException (current_state fsm)
                    ("Événement '" +:+ e +:+ "' non permis.")), fsm)
    | new_state :: _ => (inr new_state, set_current_state fsm new_state)
    end.
Proof. reflexivity. Qed.

(** An event that the table does not list for the state, in any mode. *)
Lemma transition_rejected s m b p e :
  transitions_get s e = None ->
  ~ (s = "qc_passed" /\ e = "QC_PASSED") ->
  ~ (s = "qc_failed" /\ e = "QC_FAILED") ->
  transition (mkFSM s m b p) e =
    (inl (InvalidWorkflowStateException s
            ("Événement '" +:+ e +:+ "' non permis.")), mkFSM s m b p).
Proof.
  intros Hget H1 H2. rewrite transition_eq, allowed_fallthrough by done.
  cbn [current_state]. by rewrite Hget.
Qed.



End TransitionFacts.

(** ** The dictionary [EVENTS] *)

Module EventsFacts.
Import StateMachine Tables StateMachineFacts TransitionFacts.

Lemma EVENTS_lookup_items k v :
  EVENTS !! k = Some v -> (k, v) ∈ EVENTS_items.
Proof. apply elem_of_list_to_map_2. Qed.

(** The value of an entry of [EVENTS] is never the name of an entry. *)
Lemma description_not_name k v :
  EVENTS !! k = Some v -> EVENTS !! v = None.
Proof.
  intros H. apply EVENTS_lookup_items in H. revert H.
  unfold EVENTS_items. rewrite !elem_of_cons, elem_of_nil. intros H.
  repeat (destruct H as [H|H]; [by injection H as -> ->|]).
  done.
Qed.

(** The value of an entry of [EVENTS] is never a state of the machine. *)
Lemma description_not_state k v :
  EVENTS !! k = Some v -> v ∉ BLOCK_STATES.
Proof.
  intros H. apply EVENTS_lookup_items in H. revert H.
  unfold EVENTS_items. rewrite !elem_of_cons, elem_of_nil. intros H.
  repeat (destruct H as [H|H];
          [injection H as -> ->; apply (bool_decide_eq_false_1 _);
           vm_compute; reflexivity|]).
  done.
Qed.

(** The events of the table are names of entries of [EVENTS]. *)
Lemma base_table_event_named s e t :
  (s, e, t) ∈ base_table -> is_Some (EVENTS !! e).
Proof.
  unfold base_table. rewrite !elem_of_cons, elem_of_nil. intros H.
  repeat (destruct H as [H|H];
          [injection H as -> -> ->; eexists; vm_compute; reflexivity|]).
  done.
Qed.

(** No state accepts, in any mode, an event given by its description. *)
Lemma description_rejected fsm k v :
  EVENTS !! k = Some v -> _get_allowed_transitions fsm v = [].
Proof.
  intros H. pose proof (description_not_name k v H) as Hv.
  rewrite allowed_fallthrough.
  - destruct (transitions_get (current_state fsm) v) as [t|] eqn:Hget;
      [|done].
    apply transitions_get_Some, base_table_event_named in Hget.
    rewrite Hv in Hget. by destruct Hget.
  - intros [_ ->]. discriminate Hv.
  - intros [_ ->]. discriminate Hv.
Qed.

Lemma transition_description fsm k v :
  EVENTS !! k = Some v ->
  transition fsm v =
    (inl (InvalidWorkflowStateException (current_state fsm)
            ("Événement '" +:+ v +:+ "' non permis.")), fsm).
Proof.
  intros H. by rewrite transition_eq, (description_rejected fsm k v H).
Qed.

End EventsFacts.

(** ** Running the service code *)

Module RuntimeFacts.
Import Models Runtime EventsFacts.

Lemma bind_inr {A B} (m : M A) (f : A -> M B) w a w' :
  m w = (inr a, w') -> bind m f w = f a w'.
Proof. unfold bind. by intros ->. Qed.

Lemma bind_inl {A B} (m : M A) (f : A -> M B) w e w' :
  m w = (inl e, w') -> bind m f w = (inl e, w').
Proof. unfold bind. by intros ->. Qed.

Lemma EVENTS_run k v w :
  StateMachine.EVENTS !! k = Some v -> EVENTS k w = (inr v, w).
Proof.
  intros H. unfold EVENTS, lift, StateMachine.EVENTS_getitem. by rewrite H.
Qed.

Lemma new_fsm_run s m b p w :
  s ∈ StateMachine.BLOCK_STATES ->
  new_fsm s m b p w
  = (inr (StateMachine.mkFSM s m b p), push_log (FsmInitialised b s m) w).
Proof.
  intros H. unfold new_fsm, bind, lift, modify, ret, StateMachine.init.
  by rewrite bool_decide_eq_true_2.
Qed.

Lemma new_fsm_invalid s m b p w :
  s ∉ StateMachine.BLOCK_STATES ->
  new_fsm s m b p w = (inl (ValueError s), w).
Proof.
  intros H. unfold new_fsm, bind, lift, modify, ret, StateMachine.init.
  by rewrite bool_decide_eq_false_2.
Qed.

(** Driving a machine with a value of [EVENTS] raises, whatever the state
    and the mode. *)
Lemma fsm_transition_description fsm k v w :
  StateMachine.EVENTS !! k = Some v ->
  fsm_transition fsm v w
  = (inl (InvalidWorkflowStateException (StateMachine.current_state fsm)
            ("Événement '" +:+ v +:+ "' non permis.")), w).
Proof.
  intros H. unfold fsm_transition.
  by rewrite (transition_description fsm k v H).
Qed.

Lemma get_project_and_block_run pid bid project block w :
  projects w !! pid = Some project ->
  content_blocks w !! bid = Some block ->
  _get_project_and_block pid (Some bid) w = (inr (project, Some block), w).
Proof. intros Hp Hb. unfold _get_project_and_block. by rewrite Hp, Hb. Qed.

End RuntimeFacts.

(** ** The autonomous mode *)

Module AutonomousFacts.
Import Models Runtime EventsFacts RuntimeFacts AutonomousLogic.

(** C2: in an autonomous project, for a block in any state of the machine,
    a QC report with status passed and a score at or above the threshold
    does not validate the block: the event handed to the machine is
    [EVENTS["QC_PASSED"]], the description of the event, which no state
    accepts; the call raises [InvalidWorkflowStateException], the block and
    the project are left as they were and the plan is not advanced. *)
Theorem C2_qc_passed_is_rejected settings w pid bid project block qc :
  projects w !! pid = Some project ->
  project_mode project = "Autonome" ->
  content_blocks w !! bid = Some block ->
  block_status block ∈ StateMachine.BLOCK_STATES ->
  data_status qc = Some "passed" ->
  Qle_bool (QC_VALIDATION_THRESHOLD settings)
           (default 0%Q (data_overall_score qc)) = true ->
  process_generated_block_result settings pid bid (Some qc) w
  = (inl (InvalidWorkflowStateException (block_status block)
            "Événement 'QC réussi' non permis."),
     push_log (FsmInitialised (block_id block) (block_status block)
                 "Autonome") w).
Proof.
  intros Hp Hmode Hb Hstate Hstatus Hscore.
  unfold process_generated_block_result.
  rewrite (bind_inr _ _ _ _ _ (get_project_and_block_run _ _ _ _ _ Hp Hb)).
  rewrite Hmode, bool_decide_eq_true_2 by done. cbn [negb].
  rewrite (bind_inr _ _ _ _ _ (new_fsm_run _ _ _ _ _ Hstate)).
  rewrite Hstatus, Hscore, bool_decide_eq_true_2 by done. cbn [andb].
  rewrite (bind_inr _ _ _ _ _ (EVENTS_run "QC_PASSED" _ _ eq_refl)).
  by rewrite (bind_inl _ _ _ _ _
                (fsm_transition_description _ "QC_PASSED" _ _ eq_refl)).
Qed.


(** C2 (witness): the block [b1] of an autonomous project is in state
    qc_passed and the report has status passed and the score 70. *)
Lemma C2_qc_passed_is_rejected_witness :
  process_generated_block_result get_settings "p1" "b1"
    (Some (Examples.report_passed 70))
    (Examples.world_with "Autonome" "qc_passed" 0)
  = (inl (InvalidWorkflowStateException "qc_passed"
            "Événement 'QC réussi' non permis."),
     push_log (FsmInitialised "b1" "qc_passed" "Autonome")
       (Examples.world_with "Autonome" "qc_passed" 0)).
Proof.
  apply (C2_qc_passed_is_rejected get_settings
           (Examples.world_with "Autonome" "qc_passed" 0) "p1" "b1"
           (Examples.project_in "Autonome")
           (Examples.block_in "qc_passed" 0)
           (Examples.report_passed 70)).
  - reflexivity.
  - reflexivity.
  - reflexivity.
  - apply (bool_decide_unpack _). vm_compute. exact I.
  - reflexivity.
  - reflexivity.
Defined.

(** C4: in an autonomous project, for a block in any state of the machine
    whose refinement attempts have reached the maximum, a report that does
    not pass does not bring the block to refinement_failed: the event
    handed to the machine is [EVENTS["REFINEMENT_FAILED"]], the description
    of the event, which no state accepts; the call raises
    [InvalidWorkflowStateException], no error message is recorded on the
    block and the plan is not advanced. *)
Theorem C4_exhausted_is_rejected settings w pid bid project block qc :
  projects w !! pid = Some project ->
  project_mode project = "Autonome" ->
  content_blocks w !! bid = Some block ->
  block_status block ∈ StateMachine.BLOCK_STATES ->
  bool_decide (data_status qc = Some "passed")
  && Qle_bool (QC_VALIDATION_THRESHOLD settings)
              (default 0%Q (data_overall_score qc)) = false ->
  (MAX_REFINEMENT_ATTEMPTS settings <= refinement_attempts block)%Z ->
  process_generated_block_result settings pid bid (Some qc) w
  = (inl (InvalidWorkflowStateException (block_status block)
            "Événement 'Raffinement échouée' non permis."),
     push_log (FsmInitialised (block_id block) (block_status block)
                 "Autonome") w).
Proof.
  intros Hp Hmode Hb Hstate Hfail Hmax.
  unfold process_generated_block_result.
  rewrite (bind_inr _ _ _ _ _ (get_project_and_block_run _ _ _ _ _ Hp Hb)).
  rewrite Hmode, bool_decide_eq_true_2 by done. cbn [negb].
  rewrite (bind_inr _ _ _ _ _ (new_fsm_run _ _ _ _ _ Hstate)).
  rewrite Hfail, bool_decide_eq_false_2 by lia.
  rewrite (bind_inr _ _ _ _ _ (EVENTS_run "REFINEMENT_FAILED" _ _ eq_refl)).
  by rewrite (bind_inl _ _ _ _ _
                (fsm_transition_description _ "REFINEMENT_FAILED" _ _
                   eq_refl)).
Qed.

(** C4 (witness): the block [b1] is in state qc_failed after five
    refinements, and the report has status failed and the score 40. *)
Lemma C4_exhausted_is_rejected_witness :
  process_generated_block_result get_settings "p1" "b1"
    (Some (Examples.report_failed 40))
    (Examples.world_with "Autonome" "qc_failed" 5)
  = (inl (InvalidWorkflowStateException "qc_failed"
            "Événement 'Raffinement échouée' non permis."),
     push_log (FsmInitialised "b1" "qc_failed" "Autonome")
       (Examples.world_with "Autonome" "qc_failed" 5)).
Proof.
  apply (C4_exhausted_is_rejected get_settings
           (Examples.world_with "Autonome" "qc_failed" 5) "p1" "b1"
           (Examples.project_in "Autonome")
           (Examples.block_in "qc_failed" 5)
           (Examples.report_failed 40)).
  - reflexivity.
  - reflexivity.
  - reflexivity.
  - apply (bool_decide_unpack _). vm_compute. exact I.
  - reflexivity.
  - vm_compute. discriminate.
Defined.

End AutonomousFacts.

(** ** Advancing the autonomous plan *)

Module AdvanceFacts.
Import Models Runtime RuntimeFacts AutonomousLogic.

Lemma elem_of_blocks_of_version vid w b :
  b ∈ blocks_of_version vid w <->
  exists id, content_blocks w !! id = Some b /\ version_id b = vid.
Proof.
  unfold blocks_of_version. rewrite list_elem_of_filter, list_elem_of_fmap.
  split.
  - intros [Hv [[id b'] [-> Hin]]]. exists id.
    by apply elem_of_map_to_list in Hin.
  - intros [id [Hb Hv]]. split; [done|]. exists (id, b).
    split; [done|]. by apply elem_of_map_to_list.
Qed.

Lemma all_processed_true vid w :
  forallb (fun b => bool_decide (block_status b ∈ processed_statuses))
          (blocks_of_version vid w) = true <->
  forall id b, content_blocks w !! id = Some b -> version_id b = vid ->
               block_status b ∈ processed_statuses.
Proof.
  rewrite forallb_forall. split.
  - intros H id b Hb Hv. apply (bool_decide_eq_true_1 _), H, list_elem_of_In,
      elem_of_blocks_of_version. by exists id.
  - intros H b Hin. apply list_elem_of_In, elem_of_blocks_of_version in Hin.
    destruct Hin as [id [Hb Hv]]. apply bool_decide_eq_true_2. by eapply H.
Qed.

Lemma advance_run pid project document_data vid w :
  projects w !! pid = Some project ->
  documents w !! pid = Some document_data ->
  current_version_id document_data = Some vid ->
  StateMachine.truthy vid = true ->
  _advance_autonomous_plan pid w =
    if forallb (fun b => bool_decide (block_status b ∈ processed_statuses))
               (blocks_of_version vid w)
    then (inr tt, Outcomes.finished pid vid w)
    else (inr tt, w).
Proof.
  intros Hp Hd Hv Ht. unfold _advance_autonomous_plan, bind at 1.
  unfold _get_project_and_block. rewrite Hp.
  unfold bind at 1, get_world. rewrite Hd, Hv. cbn [truthy_opt default].
  rewrite Ht.
  destruct (forallb _ _); [|reflexivity].
  reflexivity.
Qed.


(** C5 (counterexample): the only block of the current version is in
    refinement_failed; the plan is declared finished, assembly is enqueued
    and the project is set to export_pending, not to needs_manual_review. *)
Lemma C5_counterexample :
  let w := Examples.world_with "Autonome" "refinement_failed" 5 in
  let r := _advance_autonomous_plan "p1" w in
  fst r = inr tt
  /\ celery_queue (snd r) = [assemble_call "v1"]
  /\ project_status <$> projects (snd r) !! "p1" = Some "export_pending"
  /\ project_status <$> projects (snd r) !! "p1"
     <> Some "needs_manual_review".
Proof. vm_compute. repeat split; discriminate. Qed.

(** C5 (amended): when the document of the project has a current version
    and every block of that version is in one of validated,
    generation_failed, refinement_failed and archived, assembly is enqueued
    for the version and the project is set to export_pending, whether or
    not a block is in refinement_failed; the blocks are left as they are.
    When a block of the version is in another state, nothing is done. *)
Theorem C5_finished_plan_triggers_assembly w pid project document_data vid :
  projects w !! pid = Some project ->
  documents w !! pid = Some document_data ->
  current_version_id document_data = Some vid ->
  StateMachine.truthy vid = true ->
  ((forall id b, content_blocks w !! id = Some b -> version_id b = vid ->
                 block_status b ∈ processed_statuses) ->
   exists w',
     _advance_autonomous_plan pid w = (inr tt, w')
     /\ celery_queue w' = (celery_queue w ++ [assemble_call vid])%list
     /\ project_status <$> projects w' !! pid = Some "export_pending"
     /\ content_blocks w' = content_blocks w)
  /\ ((exists id b, content_blocks w !! id = Some b /\ version_id b = vid
                    /\ block_status b ∉ processed_statuses) ->
      _advance_autonomous_plan pid w = (inr tt, w)).
Proof.
  intros Hp Hd Hv Ht. rewrite (advance_run _ _ _ _ _ Hp Hd Hv Ht). split.
  - intros Hall. apply all_processed_true in Hall. rewrite Hall.
    exists (Outcomes.finished pid vid w). split; [done|].
    unfold Outcomes.finished, put_project. rewrite Hp.
    cbn [default from_option id push_celery_call set_projects projects].
    rewrite lookup_insert_eq.
    cbn [default from_option id celery_queue content_blocks projects
         set_projects push_celery_call].
    rewrite lookup_insert_eq. done.
  - intros (id & b & Hb & Hvb & Hnot).
    destruct (forallb _ _) eqn:Hall; [|done].
    exfalso. apply Hnot. rewrite all_processed_true in Hall. by eapply Hall.
Qed.

(** C5 (witness): the world of the counterexample. *)
Lemma C5_finished_plan_triggers_assembly_witness :
  exists w',
    _advance_autonomous_plan "p1"
      (Examples.world_with "Autonome" "refinement_failed" 5) = (inr tt, w')
    /\ celery_queue w' = [assemble_call "v1"]
    /\ project_status <$> projects w' !! "p1" = Some "export_pending"
    /\ content_blocks w'
       = content_blocks (Examples.world_with "Autonome" "refinement_failed" 5).
Proof.
  apply (C5_finished_plan_triggers_assembly
           (Examples.world_with "Autonome" "refinement_failed" 5) "p1"
           (Examples.project_in "Autonome") (mkDocument "d1" (Some "v1"))
           "v1"); try reflexivity.
  intros id b Hb Hv. cbn [Examples.world_with content_blocks] in Hb.
  apply lookup_singleton_Some in Hb as [_ <-].
  apply (bool_decide_unpack _). vm_compute. exact I.
Defined.

End AdvanceFacts.

(** ** The QC score calculator *)

Module ScoreFacts.
Import Models ScoreCalculator.

Lemma calculated_problems m p c :
  problems (calculate_overall_score m p c)
  = (default [] (report_problems m) ++ default [] (report_problems p)
     ++ default [] (report_problems c))%list.
Proof. reflexivity. Qed.

(** C9: a report built by the score calculator that lists a problem of
    severity critical has the status failed. *)
Theorem C9_critical_problem_fails m p c :
  (exists problem, problem ∈ problems (calculate_overall_score m p c)
                   /\ severity problem = "critical") ->
  status (calculate_overall_score m p c) = "failed".
Proof.
  intros [problem [Hin Hsev]]. rewrite calculated_problems in Hin.
  unfold calculate_overall_score. cbn [status].
  set (all := (_ ++ _ ++ _)%list) in *.
  assert (Hex : existsb
            (fun q => bool_decide (severity q = "critical")) all = true).
  { apply existsb_exists. exists problem. split.
    - by apply list_elem_of_In.
    - by apply bool_decide_eq_true_2. }
  by rewrite Hex.
Qed.

(** C9 (witness): a perfect score from the three analysers and one
    critical problem from the mathematical verifier. *)
Lemma C9_critical_problem_fails_witness :
  status
    (calculate_overall_score
       (mkSubReport
          (Some [mkQCProblem "math_error" "critical" "division par zéro"
                   None None]) (Some 1%Q) None)
       (mkSubReport None None (Some 100%Q))
       (mkSubReport None None (Some 100%Q)))
  = "failed".
Proof.
  apply C9_critical_problem_fails.
  exists (mkQCProblem "math_error" "critical" "division par zéro" None None).
  split; [|reflexivity].
  rewrite calculated_problems. cbn [default report_problems app].
  apply list_elem_of_here.
Defined.

End ScoreFacts.

(** ** The steps of the Celery tasks *)

Module TaskStepFacts.
Import Models Runtime EventsFacts RuntimeFacts WorkflowTasks.

Lemma get_block_run bid block w :
  content_blocks w !! bid = Some block ->
  get_content_block_state bid w = (inr block, w).
Proof. intros H. unfold get_content_block_state. by rewrite H. Qed.

Lemma update_block_run bid u block w :
  content_blocks w !! bid = Some block ->
  update_content_block_state bid u w
  = (inr tt, set_content_blocks <[bid := apply_block_update u block]> w).
Proof.
  intros H. unfold update_content_block_state, put_content_block.
  by rewrite H.
Qed.

Lemma update_block_missing bid u w :
  content_blocks w !! bid = None ->
  update_content_block_state bid u w = (inl (NotFoundException bid), w).
Proof.
  intros H. unfold update_content_block_state, put_content_block.
  by rewrite H.
Qed.

Lemma lookup_written bid (b : ContentBlockResponse) w :
  content_blocks (set_content_blocks <[bid := b]> w) !! bid = Some b.
Proof. cbn [set_content_blocks content_blocks]. apply lookup_insert_eq. Qed.

(** The [except Exception] clause on a block that exists: the block
    receives the description of CRITICAL_FAIL and the message, and the
    exception goes on. *)
Lemma critical_handler_run message bid e block w :
  content_blocks w !! bid = Some block ->
  critical_handler message bid e w
  = (inl e,
     set_content_blocks
       <[bid := apply_block_update
                  (mkBlockUpdate None None None (Some "Échec critique") None
                     (Some message))
                  block]> w).
Proof.
  intros Hb. unfold critical_handler.
  rewrite (bind_inr _ _ _ _ _ (EVENTS_run "CRITICAL_FAIL" _ _ eq_refl)).
  by rewrite (bind_inr _ _ _ _ _ (update_block_run _ _ _ _ Hb)).
Qed.

(** The read of [current_block.project_id] ends the body of the task. *)
Lemma project_id_raises {A} (block : ContentBlockResponse)
    (f : string -> M A) w :
  bind (getattr_project_id block) f w = (inl (AttributeError "project_id"), w).
Proof. reflexivity. Qed.

(** [generate_content_block_task] on a block that exists. *)
Lemma generate_on_a_block bid fb is_refinement content block w :
  content_blocks w !! bid = Some block ->
  generate_content_block_task bid fb is_refinement content w
  = (inl (AttributeError "project_id"),
     set_content_blocks
       <[bid := apply_block_update
                  (mkBlockUpdate None None None (Some "Échec critique") None
                     (Some "Erreur interne inattendue: "))
                  block]> w).
Proof.
  intros Hb. unfold generate_content_block_task, try_except.
  rewrite (bind_inr _ _ _ _ _ (get_block_run _ _ _ Hb)).
  rewrite project_id_raises.
  by apply critical_handler_run.
Qed.

(** [run_qc_task] on a block that exists. *)
Lemma run_qc_on_a_block settings bid qc block w :
  content_blocks w !! bid = Some block ->
  run_qc_task settings bid qc w
  = (inl (AttributeError "project_id"),
     set_content_blocks
       <[bid := apply_block_update
                  (mkBlockUpdate None None None (Some "Échec critique") None
                     (Some "Erreur interne inattendue lors du QC: "))
                  block]> w).
Proof.
  intros Hb. unfold run_qc_task, try_except.
  rewrite (bind_inr _ _ _ _ _ (get_block_run _ _ _ Hb)).
  rewrite project_id_raises.
  by apply critical_handler_run.
Qed.

End TaskStepFacts.

(** ** The Celery tasks *)

Module TaskFacts.
Import Models Runtime EventsFacts WorkflowTasks TaskStepFacts.

(** C10: every value that [EVENTS[...]] yields is outside [BLOCK_STATES],
    and such a value is what the tasks write as the status of a block.  On
    a block that exists, [generate_content_block_task] and [run_qc_task]
    stop at the read of [current_block.project_id], before the writes of
    the started and finished statuses, and their handler stores
    [EVENTS["CRITICAL_FAIL"]]: the status left in the store is the
    description "Échec critique", which is no state of the machine. *)
Theorem C10_written_statuses_are_not_states :
  (forall key status,
      StateMachine.EVENTS_getitem key = inr status ->
      status ∉ StateMachine.BLOCK_STATES)
  /\ (forall settings bid fb is_refinement content qc block w,
         content_blocks w !! bid = Some block ->
         block_status <$>
           content_blocks
             (snd (generate_content_block_task bid fb is_refinement content
                     w)) !! bid
         = Some "Échec critique"
         /\ block_status <$>
              content_blocks (snd (run_qc_task settings bid qc w)) !! bid
            = Some "Échec critique")
  /\ StateMachine.EVENTS_getitem "CRITICAL_FAIL" = inr "Échec critique"
  /\ ("Échec critique" ∉ StateMachine.BLOCK_STATES).
Proof.
  assert (Hev : forall key status,
             StateMachine.EVENTS_getitem key = inr status ->
             status ∉ StateMachine.BLOCK_STATES).
  { intros key status H. unfold StateMachine.EVENTS_getitem in H.
    destruct (StateMachine.EVENTS !! key) as [v|] eqn:Hk; [|discriminate].
    injection H as <-. by eapply description_not_state. }
  split; [exact Hev|]. split; [|split; [reflexivity|]].
  - intros settings bid fb is_refinement content qc block w Hb.
    rewrite (generate_on_a_block _ fb is_refinement content _ _ Hb).
    rewrite (run_qc_on_a_block settings _ qc _ _ Hb).
    cbn [snd]. by rewrite !lookup_written.
  - by apply (Hev "CRITICAL_FAIL").
Qed.

(** C10 (witness): the generation of the block [b1], pending generation,
    and the QC of the same block leave it with the status "Échec
    critique". *)
Lemma C10_written_statuses_are_not_states_witness :
  block_status <$>
    content_blocks
      (snd (generate_content_block_task "b1" None false "Soit $x$."
              (Examples.world_with "Supervisé" "pending_generation" 0)))
    !! "b1" = Some "Échec critique"
  /\ block_status <$>
       content_blocks
         (snd (run_qc_task get_settings "b1" (Examples.report_passed 85)
                 (Examples.world_with "Supervisé" "pending_generation" 0)))
       !! "b1" = Some "Échec critique".
Proof.
  apply (proj1 (proj2 C10_written_statuses_are_not_states)
           get_settings "b1" None false "Soit $x$."
           (Examples.report_passed 85)
           (Examples.block_in "pending_generation" 0)
           (Examples.world_with "Supervisé" "pending_generation" 0)).
  reflexivity.
Defined.

(** C3: in a supervised project the event QC_PASSED brings a block under
    QC to qc_passed, not to pending_validation (the rule of the mode is
    attached to the state qc_passed); and [run_qc_task], on a block that
    exists, ends with [AttributeError] at the read of
    [current_block.project_id]: the block is left with the status
    [EVENTS["CRITICAL_FAIL"]], not with pending_validation, and nothing
    is enqueued. *)
Theorem C3_supervised_qc_passed :
  (forall b p,
      StateMachine.transition
        (StateMachine.mkFSM "qc_in_progress" "Supervisé" b p) "QC_PASSED"
      = (inr "qc_passed", StateMachine.mkFSM "qc_passed" "Supervisé" b p))
  /\ (forall settings bid qc block w,
         content_blocks w !! bid = Some block ->
         let r := run_qc_task settings bid qc w in
         fst r = inl (AttributeError "project_id")
         /\ block_status <$> content_blocks (snd r) !! bid
            = Some "Échec critique"
         /\ block_status <$> content_blocks (snd r) !! bid
            <> Some "pending_validation"
         /\ celery_queue (snd r) = celery_queue w).
Proof.
  split.
  - intros b p. rewrite TransitionFacts.transition_eq,
      TransitionFacts.allowed_fallthrough
      by (cbn [StateMachine.current_state]; intros [? ?]; discriminate).
    reflexivity.
  - intros settings bid qc block w Hb. cbv zeta.
    rewrite (run_qc_on_a_block settings _ qc _ _ Hb). cbn [fst snd].
    rewrite lookup_written.
    split; [done|]. split; [done|]. split; [discriminate|done].
Qed.

(** C3 (witness): the block [b1], under QC, of a supervised project, and a
    report that passes with the score 85. *)
Lemma C3_supervised_qc_passed_witness :
  let r := run_qc_task get_settings "b1" (Examples.report_passed 85)
             (Examples.world_with "Supervisé" "qc_in_progress" 0) in
  fst r = inl (AttributeError "project_id")
  /\ block_status <$> content_blocks (snd r) !! "b1" = Some "Échec critique"
  /\ block_status <$> content_blocks (snd r) !! "b1"
     <> Some "pending_validation"
  /\ celery_queue (snd r) = [].
Proof.
  apply (proj2 C3_supervised_qc_passed get_settings "b1"
           (Examples.report_passed 85) (Examples.block_in "qc_in_progress" 0)
           (Examples.world_with "Supervisé" "qc_in_progress" 0)).
  reflexivity.
Defined.


(** The rows of the table that leave pending_validation. *)
Lemma base_table_pending_validation e t :
  ("pending_validation", e, t) ∈ Tables.base_table <->
  (e = "USER_VALIDATE" /\ t = "validated")
  \/ (e = "USER_REDO" /\ t = "refinement_pending").
Proof.
  assert (Hf : filter (fun x => x.1.1 = "pending_validation")
                 Tables.base_table
               = [("pending_validation", "USER_VALIDATE", "validated");
                  ("pending_validation", "USER_REDO", "refinement_pending")])
    by (vm_compute; reflexivity).
  transitivity (("pending_validation", e, t) ∈
                  filter (fun x => x.1.1 = "pending_validation")
                    Tables.base_table).
  - rewrite list_elem_of_filter. cbn [fst]. tauto.
  - rewrite Hf, !elem_of_cons, elem_of_nil.
    split.
    + intros [H|[H|[]]]; injection H as -> ->; auto.
    + intros [[-> ->]|[-> ->]]; auto.
Qed.

(** The part of C3 that the state machine satisfies: in every mode, a
    block leaves pending_validation only by USER_VALIDATE, to validated,
    or by USER_REDO, to refinement_pending. *)
Lemma pending_validation_exits m b p event s' :
  fst (StateMachine.transition
         (StateMachine.mkFSM "pending_validation" m b p) event) = inr s' <->
  (event = "USER_VALIDATE" /\ s' = "validated")
  \/ (event = "USER_REDO" /\ s' = "refinement_pending").
Proof.
  rewrite <- base_table_pending_validation.
  rewrite TransitionFacts.transition_eq,
    TransitionFacts.allowed_fallthrough
    by (cbn [StateMachine.current_state]; intros [? ?]; discriminate).
  cbn [StateMachine.current_state].
  destruct (TransitionFacts.fallthrough_cases "pending_validation" event)
    as [[-> Hno]|[t [-> [-> Hiff]]]]; cbn [fst].
  - split; [discriminate|]. intros H. by apply Hno in H.
  - rewrite Hiff. split; [by intros [= <-]|by intros ->].
Qed.

End TaskFacts.

(** ** The supervised mode *)

Module SupervisorFacts.
Import Models Runtime EventsFacts RuntimeFacts SupervisorLogic.

(** C7 (counterexample): the block [b1] of a supervised project is in
    generation_in_progress, a state from which USER_REDO is not permitted,
    and the user sends REDO without feedback.  The call fails on the guard
    of the REDO branch, with a plain [BadRequestException]: the state
    machine is not consulted and the error is not an invalid transition. *)
Lemma C7_counterexample :
  let w := Examples.world_with "Supervisé" "generation_in_progress" 0 in
  let r := handle_user_signal "p1" (mkSignal "REDO" (Some "b1") None) w in
  StateMachine._get_allowed_transitions
    (StateMachine.mkFSM "generation_in_progress" "Supervisé" "b1" "p1")
    "USER_REDO" = []
  /\ fst r = inl (BadRequestException "REDO")
  /\ is_invalid_transition (BadRequestException "REDO") = false.
Proof. vm_compute. repeat split. Qed.

(** C7 (amended): in a supervised project, a REDO signal that carries a
    non-empty feedback, for a block whose stored status is a state of the
    machine, fails with [InvalidWorkflowStateException]; the projects, the
    blocks, the tasks and the queue are left as they were (only the log
    line of the machine's construction is added). *)
Theorem C7_redo_with_feedback_is_rejected w pid bid project block fb :
  projects w !! pid = Some project ->
  project_mode project = "Supervisé" ->
  content_blocks w !! bid = Some block ->
  block_status block ∈ StateMachine.BLOCK_STATES ->
  fb <> [] ->
  let r := handle_user_signal pid (mkSignal "REDO" (Some bid) (Some fb)) w in
  fst r = inl (InvalidWorkflowStateException (block_status block)
            "Événement 'Demande de raffinement par l'utilisateur' non permis.")
  /\ is_invalid_transition
       (InvalidWorkflowStateException (block_status block)
          "Événement 'Demande de raffinement par l'utilisateur' non permis.")
     = true
  /\ projects (snd r) = projects w
  /\ content_blocks (snd r) = content_blocks w
  /\ workflow_tasks (snd r) = workflow_tasks w
  /\ celery_queue (snd r) = celery_queue w.
Proof.
  intros Hp Hmode Hb Hstate Hfb r. subst r.
  unfold handle_user_signal. cbn [signal_block_id signal_type feedback].
  rewrite (bind_inr _ _ _ _ _ (get_project_and_block_run _ _ _ _ _ Hp Hb)).
  rewrite Hmode, bool_decide_eq_true_2 by done. cbn [negb].
  rewrite (bind_inr _ _ _ _ _
             (bind_inr _ _ _ _ _ (new_fsm_run _ _ _ _ _ Hstate))).
  cbn [ret].
  rewrite bool_decide_eq_false_2 by discriminate.
  rewrite bool_decide_eq_true_2 by done.
  destruct fb as [|x fb]; [done|].
  rewrite (bind_inr _ _ _ _ _ (EVENTS_run "USER_REDO" _ _ eq_refl)).
  rewrite (bind_inl _ _ _ _ _
             (fsm_transition_description _ "USER_REDO" _ _ eq_refl)).
  cbn [fst snd StateMachine.current_state]. repeat split.
Qed.

(** C7 (witness): REDO with a feedback on the block [b1], in
    generation_in_progress. *)
Lemma C7_redo_with_feedback_is_rejected_witness :
  let w := Examples.world_with "Supervisé" "generation_in_progress" 0 in
  let r := handle_user_signal "p1"
             (mkSignal "REDO" (Some "b1") (Some [("text", "plus court")])) w in
  fst r = inl (InvalidWorkflowStateException "generation_in_progress"
            "Événement 'Demande de raffinement par l'utilisateur' non permis.")
  /\ is_invalid_transition
       (InvalidWorkflowStateException "generation_in_progress"
          "Événement 'Demande de raffinement par l'utilisateur' non permis.")
     = true
  /\ projects (snd r) = projects w
  /\ content_blocks (snd r) = content_blocks w
  /\ workflow_tasks (snd r) = workflow_tasks w
  /\ celery_queue (snd r) = celery_queue w.
Proof.
  apply (C7_redo_with_feedback_is_rejected
           (Examples.world_with "Supervisé" "generation_in_progress" 0)
           "p1" "b1" (Examples.project_in "Supervisé")
           (Examples.block_in "generation_in_progress" 0)
           [("text", "plus court")]).
  - reflexivity.
  - reflexivity.
  - reflexivity.
  - apply (bool_decide_unpack _). vm_compute. exact I.
  - discriminate.
Defined.

End SupervisorFacts.

(** ** The planner *)

Module PlannerFacts.
Import Models Planner.

(** A step is skipped exactly when it is a generate_block step whose block
    is found among the given blocks with a status of the list of
    [get_next_task_in_plan]. *)
Lemma already_processed_iff blocks step :
  already_processed blocks step = true <->
  exists id ty se ch b,
    step = GenerateBlock id ty se ch
    /\ find_block blocks id = Some b
    /\ block_status b ∈ skipped_statuses.
Proof.
  split.
  - destruct step as [| id ty se ch |]; cbn [already_processed];
      try discriminate.
    destruct (find_block blocks id) as [b|] eqn:Hb; [|discriminate].
    intros H. exists id, ty, se, ch, b.
    repeat split; [done|]. by apply (bool_decide_eq_true_1 _).
  - intros (id & ty & se & ch & b & -> & Hb & Hs).
    cbn [already_processed]. rewrite Hb. by apply bool_decide_eq_true_2.
Qed.

(** The plan ends with the final assembly: it is among the steps that
    remain from any index within the plan. *)
Lemma final_assembly_remains structure p v n :
  (n < length (generate_initial_plan structure p v))%nat ->
  FinalAssembly v ∈ drop n (generate_initial_plan structure p v).
Proof.
  unfold generate_initial_plan. rewrite length_app. cbn [length]. intros Hn.
  rewrite drop_app_le by lia. apply elem_of_app. right. apply list_elem_of_here.
Qed.

Lemma getitem_lookup {A} (l : list A) (i : Z) x :
  (0 <= i)%Z -> l !! Z.to_nat i = Some x -> getitem l i = inr x.
Proof.
  intros Hi Hx. unfold getitem. cbv zeta.
  rewrite (bool_decide_eq_false_2 (i < 0)%Z) by lia. cbv iota.
  rewrite (bool_decide_eq_false_2 (i < 0)%Z) by lia. by rewrite Hx.
Qed.

(** With enough fuel, the recursion returns the first step, from the
    index on, that is not skipped. *)
Lemma next_task_from_find fuel plan idx blocks :
  (0 <= idx)%Z ->
  (length plan - Z.to_nat idx < fuel)%nat ->
  next_task_from fuel plan idx blocks
  = Some (inr (snd <$> list_find
                         (fun step => already_processed blocks step = false)
                         (drop (Z.to_nat idx) plan))).
Proof.
  revert idx. induction fuel as [|fuel IH]; intros idx Hidx Hfuel; [lia|].
  cbn [next_task_from]. case_bool_decide as Hlen.
  - rewrite drop_ge by lia. reflexivity.
  - destruct (lookup_lt_is_Some_2 plan (Z.to_nat idx)) as [x Hx]; [lia|].
    rewrite (getitem_lookup _ _ _ Hidx Hx), (drop_S _ _ _ Hx).
    cbn [list_find]. destruct (already_processed blocks x) eqn:Hproc.
    + rewrite decide_False by discriminate.
      rewrite IH by lia.
      replace (Z.to_nat (idx + 1)) with (S (Z.to_nat idx)) by lia.
      do 2 f_equal.
      by destruct (list_find _ (drop (S (Z.to_nat idx)) plan)) as [[??]|].
    + by rewrite decide_True.
Qed.

(** C6 (counterexample): in the version [v1], whose only block is [b1],
    the step of [b1] has the index 1.  With [b1] in critical_error, a
    terminal state of the specification, the step is not skipped; with
    [b1] in generation_failed, which is not one, it is skipped; and with
    [b1] validated, the planner returns the final assembly, not the
    absence of a task. *)
Lemma C6_counterexample :
  let next status :=
    get_next_task_in_plan (Examples.project_in "Autonome")
      Examples.version_v1 1 [Examples.block_in status 0] in
  "critical_error" ∈ Spec.terminal_states
  /\ next "critical_error"
     = Some (inr (Some (GenerateBlock (Some "b1") (Some "definition")
                          (Some "sec1.1") (Some "chap1"))))
  /\ ("generation_failed" ∉ Spec.terminal_states)
  /\ next "generation_failed" = Some (inr (Some (FinalAssembly "v1")))
  /\ next "validated" = Some (inr (Some (FinalAssembly "v1"))).
Proof.
  cbv zeta. split; [apply (bool_decide_unpack _); vm_compute; exact I|].
  split; [vm_compute; reflexivity|].
  split; [apply (bool_decide_eq_false_1 _); vm_compute; reflexivity|].
  split; vm_compute; reflexivity.
Qed.

(** C6 (amended): from an index that is not negative, the planner returns
    the first step of the plan, from that index on, that is not a
    generate_block step of a block already in validated,
    generation_failed, refinement_failed or archived; within the plan
    there is always such a step, the final assembly at the latest, and the
    planner returns no step only from an index past the end of the plan. *)
Theorem C6_next_task_is_first_unprocessed_step project dv idx blocks :
  (0 <= idx)%Z ->
  let plan := generate_initial_plan (content_structure dv)
                (project_id project) (dv_version_id dv) in
  let rest := drop (Z.to_nat idx) plan in
  get_next_task_in_plan project dv idx blocks
  = Some (inr (snd <$> list_find
                         (fun step => already_processed blocks step = false)
                         rest))
  /\ (forall step,
        already_processed blocks step = true <->
        exists id ty se ch b,
          step = GenerateBlock id ty se ch
          /\ find_block blocks id = Some b
          /\ block_status b ∈ skipped_statuses)
  /\ (get_next_task_in_plan project dv idx blocks = Some (inr None) <->
      (Z.of_nat (length plan) <= idx)%Z)
  /\ ((forall step, step ∈ rest ->
                    step = FinalAssembly (dv_version_id dv)
                    \/ already_processed blocks step = true) ->
      (idx < Z.of_nat (length plan))%Z ->
      get_next_task_in_plan project dv idx blocks
      = Some (inr (Some (FinalAssembly (dv_version_id dv))))).
Proof.
  intros Hidx plan rest.
  assert (Hrun : get_next_task_in_plan project dv idx blocks
                 = Some (inr (snd <$> list_find
                           (fun step => already_processed blocks step = false)
                           rest))).
  { unfold get_next_task_in_plan. fold plan.
    apply next_task_from_find; [done|lia]. }
  split; [exact Hrun|]. split; [apply already_processed_iff|].
  rewrite Hrun. split.
  - split.
    + intros [= Hnone]. apply fmap_None, list_find_None in Hnone.
      destruct (decide (Z.of_nat (length plan) <= idx)%Z) as [|Hlt]; [done|].
      exfalso. rewrite Forall_forall in Hnone.
      apply (Hnone (FinalAssembly (dv_version_id dv))); [|reflexivity].
      apply final_assembly_remains. fold plan. lia.
    + intros Hge. subst rest. by rewrite drop_ge by lia.
  - intros Hall Hlt.
    assert (Hin : FinalAssembly (dv_version_id dv) ∈ rest)
      by (apply final_assembly_remains; fold plan; lia).
    destruct (list_find_elem_of
                (fun step => already_processed blocks step = false)
                rest _ Hin eq_refl) as [[i step] Hfind].
    rewrite Hfind. cbn [fmap option_fmap option_map snd]. do 3 f_equal.
    apply list_find_Some in Hfind as (Hi & Hstep & _).
    destruct (Hall step) as [->|Hproc]; [by eapply list_elem_of_lookup_2|done|].
    congruence.
Qed.

(** C6 (witness): the version [v1] with its block validated, from the
    index 1: the step of the block is skipped and the final assembly is
    returned. *)
Lemma C6_next_task_is_first_unprocessed_step_witness :
  (0 <= 1)%Z
  /\ get_next_task_in_plan (Examples.project_in "Autonome")
       Examples.version_v1 1 [Examples.block_in "validated" 0]
     = Some (inr (Some (FinalAssembly "v1"))).
Proof.
  assert (Hidx : (0 <= 1)%Z) by lia.
  split; [exact Hidx|].
  apply (proj2 (proj2 (proj2
           (C6_next_task_is_first_unprocessed_step
              (Examples.project_in "Autonome") Examples.version_v1 1
              [Examples.block_in "validated" 0] Hidx)))).
  - intros step Hin. apply list_elem_of_In in Hin. vm_compute in Hin.
    destruct Hin as [<-|[<-|[]]].
    + right. vm_compute. reflexivity.
    + left. reflexivity.
  - vm_compute. reflexivity.
Defined.

End PlannerFacts.

(** ** The completion endpoint *)

Module EndpointFacts.
Import Models Runtime EventsFacts RuntimeFacts AutonomousLogic Endpoints.
Import Outcomes.

(** In an autonomous project, the processing of a result builds the
    machine of the block and stops at the first transition. *)
Lemma process_run settings w pid bid project block qc :
  projects w !! pid = Some project ->
  project_mode project = "Autonome" ->
  content_blocks w !! bid = Some block ->
  block_status block ∈ StateMachine.BLOCK_STATES ->
  process_generated_block_result settings pid bid qc w
  = (inl match qc with
         | None => AttributeError "get"
         | Some qc =>
             InvalidWorkflowStateException (block_status block)
               ("Événement '"
                +:+ default "" (StateMachine.EVENTS
                                  !! chosen_event settings block qc)
                +:+ "' non permis.")
         end,
     push_log
       (FsmInitialised (block_id block) (block_status block) "Autonome") w).
Proof.
  intros Hp Hmode Hb Hstate. unfold process_generated_block_result.
  rewrite (bind_inr _ _ _ _ _ (get_project_and_block_run _ _ _ _ _ Hp Hb)).
  rewrite Hmode, bool_decide_eq_true_2 by done. cbn [negb].
  rewrite (bind_inr _ _ _ _ _ (new_fsm_run _ _ _ _ _ Hstate)).
  destruct qc as [qc|]; [|reflexivity].
  unfold chosen_event.
  destruct (bool_decide (data_status qc = Some "passed")
            && Qle_bool (QC_VALIDATION_THRESHOLD settings)
                 (default 0%Q (data_overall_score qc))).
  - rewrite (bind_inr _ _ _ _ _ (EVENTS_run "QC_PASSED" _ _ eq_refl)).
    by rewrite (bind_inl _ _ _ _ _
                  (fsm_transition_description _ "QC_PASSED" _ _ eq_refl)).
  - destruct (bool_decide (refinement_attempts block
                           < MAX_REFINEMENT_ATTEMPTS settings)%Z).
    + rewrite (bind_inr _ _ _ _ _ (EVENTS_run "QC_FAILED" _ _ eq_refl)).
      by rewrite (bind_inl _ _ _ _ _
                    (fsm_transition_description _ "QC_FAILED" _ _ eq_refl)).
    + rewrite (bind_inr _ _ _ _ _
                 (EVENTS_run "REFINEMENT_FAILED" _ _ eq_refl)).
      by rewrite (bind_inl _ _ _ _ _
                    (fsm_transition_description _ "REFINEMENT_FAILED" _ _
                       eq_refl)).
Qed.



End EndpointFacts.

(** * Further properties of the code *)

(** ** The state machine as a graph *)

Module MachineFacts.
Import StateMachine Tables StateMachineFacts TransitionFacts EventsFacts.
Import Sequences.

(** The states and the events of the table are declared ones. *)
Lemma base_table_declared s e t :
  (s, e, t) ∈ base_table ->
  s ∈ BLOCK_STATES /\ t ∈ BLOCK_STATES /\ is_Some (EVENTS !! e).
Proof.
  assert (H : Forall (fun x => x.1.1 ∈ BLOCK_STATES /\ x.2 ∈ BLOCK_STATES
                               /\ is_Some (EVENTS !! x.1.2)) base_table).
  { apply (bool_decide_unpack _). vm_compute. exact I. }
  rewrite Forall_forall in H. intros Hin. exact (H _ Hin).
Qed.

Lemma mode_table_declared m s e t :
  (s, e, t) ∈ mode_table m ->
  s ∈ BLOCK_STATES /\ t ∈ BLOCK_STATES /\ is_Some (EVENTS !! e).
Proof.
  assert (H : forall l : list (string * string * string),
             Forall (fun x => x.1.1 ∈ BLOCK_STATES /\ x.2 ∈ BLOCK_STATES
                              /\ is_Some (EVENTS !! x.1.2)) l ->
             (s, e, t) ∈ l ->
             s ∈ BLOCK_STATES /\ t ∈ BLOCK_STATES /\ is_Some (EVENTS !! e)).
  { intros l Hl Hin. rewrite Forall_forall in Hl. exact (Hl _ Hin). }
  unfold mode_table. repeat case_bool_decide; apply H;
    apply (bool_decide_unpack _); vm_compute; exact I.
Qed.

(** One call of [transition], against the table of the mode. *)
Lemma transition_cases fsm e :
  (transition fsm e
   = (inl (InvalidWorkflowStateException (current_state fsm)
             ("Événement '" +:+ e +:+ "' non permis.")), fsm)
   /\ forall t, (current_state fsm, e, t) ∉ code_table (mode fsm))
  \/ (exists t, transition fsm e = (inr t, set_current_state fsm t)
                /\ (current_state fsm, e, t) ∈ code_table (mode fsm)).
Proof.
  rewrite transition_eq.
  destruct (allowed_cases fsm e) as [[-> Hno]|[t [-> Hiff]]].
  - by left.
  - right. exists t. split; [done|]. by apply Hiff.
Qed.

(** A step along an entry of the dictionary, in any mode. *)
Lemma base_step s e t m b p :
  (s, e, t) ∈ base_table ->
  transition (mkFSM s m b p) e = (inr t, mkFSM t m b p).
Proof.
  intros Hin. destruct (base_table_not_mode_cell _ _ _ Hin) as [H1 H2].
  rewrite transition_eq, allowed_fallthrough by done.
  cbn [current_state]. rewrite (transitions_get_complete _ _ _ Hin).
  by rewrite (base_table_truthy _ _ _ Hin).
Qed.

(** X1: a run of calls on a machine that the constructor accepted never
    leaves [BLOCK_STATES], and changes nothing but the state. *)
Theorem transition_all_stays_in_states s m b p fsm events :
  init s m b p = inr fsm ->
  current_state (snd (transition_all fsm events)) ∈ BLOCK_STATES
  /\ mode (snd (transition_all fsm events)) = m
  /\ block_id (snd (transition_all fsm events)) = b
  /\ project_id (snd (transition_all fsm events)) = p.
Proof.
  unfold init. case_bool_decide as Hs; [|discriminate]. intros [= <-].
  revert s Hs. induction events as [|e events IH]; intros s Hs.
  - by cbn.
  - cbn [transition_all].
    destruct (transition_cases (mkFSM s m b p) e) as [[-> _]|[t [-> Hin]]].
    + by cbn.
    + apply IH. cbn [current_state mode] in Hin.
      apply elem_of_app in Hin as [Hin|Hin].
      * by apply base_table_declared in Hin as (_ & ? & _).
      * by apply mode_table_declared in Hin as (_ & ? & _).
Qed.

(** X1 (witness). *)
Lemma transition_all_stays_in_states_witness :
  init "pending_generation" "Autonome" "b1" "p1"
  = inr (mkFSM "pending_generation" "Autonome" "b1" "p1")
  /\ transition_all (mkFSM "pending_generation" "Autonome" "b1" "p1")
       ["GENERATE_STARTED"; "GENERATE_SUCCESS"; "QC_STARTED"; "QC_PASSED";
        "QC_PASSED"; "GENERATE_STARTED"]
     = (inl (InvalidWorkflowStateException "validated"
               "Événement 'GENERATE_STARTED' non permis."),
        mkFSM "validated" "Autonome" "b1" "p1")
  /\ "validated" ∈ BLOCK_STATES.
Proof.
  split; [reflexivity|]. split; [vm_compute; reflexivity|].
  exact (proj1 (transition_all_stays_in_states
                  "pending_generation" "Autonome" "b1" "p1"
                  (mkFSM "pending_generation" "Autonome" "b1" "p1")
                  ["GENERATE_STARTED"; "GENERATE_SUCCESS"; "QC_STARTED";
                   "QC_PASSED"; "QC_PASSED"; "GENERATE_STARTED"]
                  eq_refl)).
Defined.

(** A table entry given by computation. *)
Ltac table_entry := apply (bool_decide_unpack _); vm_compute; exact I.

(** X2: the state archived accepts no event, in any mode, and it is the only
    state of [BLOCK_STATES] without a way out. *)
Theorem archived_is_the_only_dead_end :
  (forall m b p e,
      transition (mkFSM "archived" m b p) e
      = (inl (InvalidWorkflowStateException "archived"
                ("Événement '" +:+ e +:+ "' non permis.")),
         mkFSM "archived" m b p))
  /\ (forall s, s ∈ BLOCK_STATES -> s <> "archived" ->
                exists e t, forall m b p,
                    transition (mkFSM s m b p) e = (inr t, mkFSM t m b p)).
Proof.
  split.
  - intros m b p e. apply transition_rejected.
    + destruct (transitions_get "archived" e) as [t|] eqn:Hget; [|done].
      apply transitions_get_Some in Hget.
      assert (Hf : filter (fun x => x.1.1 = "archived") base_table = [])
        by (vm_compute; reflexivity).
      assert (Hin : ("archived", e, t)
                      ∈ filter (fun x => x.1.1 = "archived") base_table)
        by (by apply list_elem_of_filter).
      rewrite Hf in Hin. by apply elem_of_nil in Hin.
    + intros [? _]. discriminate.
    + intros [? _]. discriminate.
  - intros s Hs Hne. unfold BLOCK_STATES in Hs.
    rewrite !elem_of_cons, elem_of_nil in Hs.
    destruct Hs as [->|[->|[->|[->|[->|[->|[->|[->|[->|[->|[->|[->|[->|[->|[]]]]]]]]]]]]]]];
      try done.
    + exists "GENERATE_STARTED", "generation_in_progress".
      intros. apply base_step. table_entry.
    + exists "GENERATE_SUCCESS", "qc_pending".
      intros. apply base_step. table_entry.
    + exists "ARCHIVE", "archived". intros. apply base_step. table_entry.
    + exists "QC_STARTED", "qc_in_progress".
      intros. apply base_step. table_entry.
    + exists "QC_PASSED", "qc_passed". intros. apply base_step. table_entry.
    + exists "REFINEMENT_NEEDED", "refinement_pending".
      intros. apply base_step. table_entry.
    + exists "USER_VALIDATE", "validated".
      intros. apply base_step. table_entry.
    + exists "REFINEMENT_STARTED", "refinement_in_progress".
      intros. apply base_step. table_entry.
    + exists "REFINEMENT_SUCCESS", "qc_pending".
      intros. apply base_step. table_entry.
    + exists "ARCHIVE", "archived". intros. apply base_step. table_entry.
    + exists "USER_VALIDATE", "validated".
      intros. apply base_step. table_entry.
    + exists "ARCHIVE", "archived". intros. apply base_step. table_entry.
    + exists "ARCHIVE", "archived". intros. apply base_step. table_entry.
Qed.

(** X2 (witness). *)
Lemma archived_is_the_only_dead_end_witness :
  "validated" ∈ BLOCK_STATES /\ "validated" <> "archived"
  /\ exists e t, forall m b p,
        transition (mkFSM "validated" m b p) e = (inr t, mkFSM t m b p).
Proof.
  assert (Hs : "validated" ∈ BLOCK_STATES) by table_entry.
  assert (Hne : "validated" <> "archived") by discriminate.
  split; [exact Hs|]. split; [exact Hne|].
  exact (proj2 archived_is_the_only_dead_end "validated" Hs Hne).
Defined.

(** X3: the mode of the project is read in two cells only: QC_PASSED from
    qc_passed and QC_FAILED from qc_failed.  Everywhere else the outcome
    of a call is the same in every mode; in those two cells a mode other
    than the two known ones rejects the event. *)
Theorem mode_is_read_in_two_cells s e m m' b p :
  ~ (s = "qc_passed" /\ e = "QC_PASSED") ->
  ~ (s = "qc_failed" /\ e = "QC_FAILED") ->
  fst (transition (mkFSM s m b p) e) = fst (transition (mkFSM s m' b p) e)
  /\ current_state (snd (transition (mkFSM s m b p) e))
     = current_state (snd (transition (mkFSM s m' b p) e)).
Proof.
  intros H1 H2. rewrite !transition_eq, !allowed_fallthrough by done.
  cbn [current_state].
  by destruct (transitions_get s e) as [t|]; [destruct (truthy t)|].
Qed.

(** X3 (witness). *)
Lemma mode_is_read_in_two_cells_witness :
  fst (transition (mkFSM "qc_in_progress" "Supervisé" "b1" "p1") "QC_PASSED")
  = fst (transition (mkFSM "qc_in_progress" "Autonome" "b1" "p1") "QC_PASSED")
  /\ current_state
       (snd (transition (mkFSM "qc_in_progress" "Supervisé" "b1" "p1")
               "QC_PASSED"))
     = current_state
         (snd (transition (mkFSM "qc_in_progress" "Autonome" "b1" "p1")
                 "QC_PASSED")).
Proof.
  apply (mode_is_read_in_two_cells "qc_in_progress" "QC_PASSED"
           "Supervisé" "Autonome" "b1" "p1").
  - intros [? _]. discriminate.
  - intros [? _]. discriminate.
Defined.

(** X4: with a mode that is neither of the two known ones, the two cells that
    depend on the mode reject their event. *)
Theorem unknown_mode_rejects_mode_cells m b p :
  m <> "Supervisé" -> m <> "Autonome" ->
  transition (mkFSM "qc_passed" m b p) "QC_PASSED"
  = (inl (InvalidWorkflowStateException "qc_passed"
            "Événement 'QC_PASSED' non permis."), mkFSM "qc_passed" m b p)
  /\ transition (mkFSM "qc_failed" m b p) "QC_FAILED"
     = (inl (InvalidWorkflowStateException "qc_failed"
               "Événement 'QC_FAILED' non permis."), mkFSM "qc_failed" m b p).
Proof.
  intros Hs Ha. rewrite !transition_eq. unfold _get_allowed_transitions.
  cbn [mode current_state].
  rewrite !(bool_decide_eq_false_2 (m = "Supervisé")) by done.
  rewrite !(bool_decide_eq_false_2 (m = "Autonome")) by done.
  split; reflexivity.
Qed.

(** X4 (witness). *)
Lemma unknown_mode_rejects_mode_cells_witness :
  transition (mkFSM "qc_passed" "Manuel" "b1" "p1") "QC_PASSED"
  = (inl (InvalidWorkflowStateException "qc_passed"
            "Événement 'QC_PASSED' non permis."),
     mkFSM "qc_passed" "Manuel" "b1" "p1")
  /\ transition (mkFSM "qc_failed" "Manuel" "b1" "p1") "QC_FAILED"
     = (inl (InvalidWorkflowStateException "qc_failed"
               "Événement 'QC_FAILED' non permis."),
        mkFSM "qc_failed" "Manuel" "b1" "p1").
Proof.
  apply (unknown_mode_rejects_mode_cells "Manuel" "b1" "p1"); discriminate.
Defined.

(** X5: a call succeeds only from a declared state, on the name of a declared
    event, and it leads to a declared state. *)
Theorem accepted_calls_are_declared fsm e t fsm' :
  transition fsm e = (inr t, fsm') ->
  current_state fsm ∈ BLOCK_STATES
  /\ is_Some (EVENTS !! e)
  /\ t ∈ BLOCK_STATES
  /\ fsm' = set_current_state fsm t.
Proof.
  intros H.
  destruct (transition_cases fsm e) as [[H' _]|[t' [H' Hin]]];
    rewrite H' in H; [discriminate|].
  injection H as -> ->.
  apply elem_of_app in Hin as [Hin|Hin];
    [apply base_table_declared in Hin|apply mode_table_declared in Hin];
    tauto.
Qed.

(** X5 (witness). *)
Lemma accepted_calls_are_declared_witness :
  "qc_pending" ∈ BLOCK_STATES
  /\ is_Some (EVENTS !! "QC_STARTED")
  /\ "qc_in_progress" ∈ BLOCK_STATES
  /\ mkFSM "qc_in_progress" "Supervisé" "b1" "p1"
     = set_current_state (mkFSM "qc_pending" "Supervisé" "b1" "p1")
         "qc_in_progress".
Proof.
  apply (accepted_calls_are_declared
           (mkFSM "qc_pending" "Supervisé" "b1" "p1") "QC_STARTED"
           "qc_in_progress" (mkFSM "qc_in_progress" "Supervisé" "b1" "p1")).
  vm_compute. reflexivity.
Defined.

(** An entry of a list that satisfies a test is an entry of the filtered
    list. *)
Lemma in_filtered {A} (P : A -> Prop) `{!forall x, Decision (P x)}
    (l l' : list A) x :
  filter P l = l' -> x ∈ l -> P x -> x ∈ l'.
Proof. intros <- Hin HP. by apply list_elem_of_filter. Qed.

(** X6: how a block comes to wait for the user, and how it becomes validated:
    pending_validation is entered only in a supervised project, from
    qc_passed on QC_PASSED; validated is entered on USER_VALIDATE, from
    qc_passed or pending_validation, or in an autonomous project from
    qc_passed on QC_PASSED. *)
Theorem entries_of_validation fsm e fsm' :
  (transition fsm e = (inr "pending_validation", fsm') ->
   mode fsm = "Supervisé" /\ current_state fsm = "qc_passed"
   /\ e = "QC_PASSED")
  /\ (transition fsm e = (inr "validated", fsm') ->
      (e = "USER_VALIDATE"
       /\ (current_state fsm = "qc_passed"
           \/ current_state fsm = "pending_validation"))
      \/ (mode fsm = "Autonome" /\ current_state fsm = "qc_passed"
          /\ e = "QC_PASSED")).
Proof.
  split; intros H;
    (destruct (transition_cases fsm e) as [[H' _]|[t' [H' Hin]]];
     rewrite H' in H; [discriminate|]); injection H as -> _;
    apply elem_of_app in Hin as [Hin|Hin].
  - eapply (in_filtered (fun x => x.2 = "pending_validation") _ []) in Hin;
      [by apply elem_of_nil in Hin|vm_compute; reflexivity|done].
  - revert Hin. unfold mode_table. repeat case_bool_decide;
      rewrite ?elem_of_cons, elem_of_nil; intros Hin.
    + destruct Hin as [[= -> ->]|[[=]|[]]]. done.
    + destruct Hin as [[=]|[[=]|[]]].
    + destruct Hin.
  - eapply (in_filtered (fun x => x.2 = "validated") _
              [("qc_passed", "USER_VALIDATE", "validated");
               ("pending_validation", "USER_VALIDATE", "validated")])
      in Hin; [|vm_compute; reflexivity|done].
    rewrite !elem_of_cons, elem_of_nil in Hin.
    destruct Hin as [[= -> ->]|[[= -> ->]|[]]]; left; tauto.
  - revert Hin. unfold mode_table. repeat case_bool_decide;
      rewrite ?elem_of_cons, elem_of_nil; intros Hin.
    + destruct Hin as [[=]|[[=]|[]]].
    + destruct Hin as [[= -> ->]|[[=]|[]]]. right. done.
    + destruct Hin.
Qed.

(** X6 (witness). *)
Lemma entries_of_validation_witness :
  transition (mkFSM "qc_passed" "Supervisé" "b1" "p1") "QC_PASSED"
  = (inr "pending_validation",
     mkFSM "pending_validation" "Supervisé" "b1" "p1")
  /\ mode (mkFSM "qc_passed" "Supervisé" "b1" "p1") = "Supervisé"
  /\ current_state (mkFSM "qc_passed" "Supervisé" "b1" "p1") = "qc_passed"
  /\ "QC_PASSED" = "QC_PASSED".
Proof.
  assert (H : transition (mkFSM "qc_passed" "Supervisé" "b1" "p1")
                "QC_PASSED"
              = (inr "pending_validation",
                 mkFSM "pending_validation" "Supervisé" "b1" "p1"))
    by (vm_compute; reflexivity).
  split; [exact H|].
  exact (proj1 (entries_of_validation
                  (mkFSM "qc_passed" "Supervisé" "b1" "p1") "QC_PASSED"
                  (mkFSM "pending_validation" "Supervisé" "b1" "p1")) H).
Defined.

(** A step of a run along an entry of the dictionary. *)
Ltac run_step t :=
  rewrite (base_step _ _ t) by table_entry; cbn [transition_all].

(** X7: no block is stuck before it is archived: from every state of
    [BLOCK_STATES] at most four calls lead to archived, in every mode. *)
Theorem every_state_reaches_archived s :
  s ∈ BLOCK_STATES ->
  exists events,
    (length events <= 4)%nat
    /\ forall m b p,
        transition_all (mkFSM s m b p) events
        = (inr tt, mkFSM "archived" m b p).
Proof.
  intros Hs. unfold BLOCK_STATES in Hs.
  rewrite !elem_of_cons, elem_of_nil in Hs.
  destruct Hs as [->|[->|[->|[->|[->|[->|[->|[->|[->|[->|[->|[->|[->|[->|[]]]]]]]]]]]]]]].
  - exists ["GENERATE_STARTED"; "GENERATE_FAILED"; "ARCHIVE"].
    split; [cbn; lia|]. intros. cbn [transition_all].
    run_step "generation_in_progress". run_step "generation_failed".
    by run_step "archived".
  - exists ["GENERATE_FAILED"; "ARCHIVE"].
    split; [cbn; lia|]. intros. cbn [transition_all].
    run_step "generation_failed". by run_step "archived".
  - exists ["ARCHIVE"]. split; [cbn; lia|]. intros. cbn [transition_all].
    by run_step "archived".
  - exists ["QC_STARTED"; "CRITICAL_FAIL"; "ARCHIVE"].
    split; [cbn; lia|]. intros. cbn [transition_all].
    run_step "qc_in_progress". run_step "critical_error".
    by run_step "archived".
  - exists ["CRITICAL_FAIL"; "ARCHIVE"].
    split; [cbn; lia|]. intros. cbn [transition_all].
    run_step "critical_error". by run_step "archived".
  - exists ["REFINEMENT_NEEDED"; "REFINEMENT_STARTED"; "REFINEMENT_FAILED";
            "ARCHIVE"].
    split; [cbn; lia|]. intros. cbn [transition_all].
    run_step "refinement_pending". run_step "refinement_in_progress".
    run_step "refinement_failed". by run_step "archived".
  - exists ["ARCHIVE"]. split; [cbn; lia|]. intros. cbn [transition_all].
    by run_step "archived".
  - exists ["REFINEMENT_STARTED"; "REFINEMENT_FAILED"; "ARCHIVE"].
    split; [cbn; lia|]. intros. cbn [transition_all].
    run_step "refinement_in_progress". run_step "refinement_failed".
    by run_step "archived".
  - exists ["REFINEMENT_FAILED"; "ARCHIVE"].
    split; [cbn; lia|]. intros. cbn [transition_all].
    run_step "refinement_failed". by run_step "archived".
  - exists ["ARCHIVE"]. split; [cbn; lia|]. intros. cbn [transition_all].
    by run_step "archived".
  - exists ["USER_VALIDATE"; "ARCHIVE"].
    split; [cbn; lia|]. intros. cbn [transition_all].
    run_step "validated". by run_step "archived".
  - exists ["ARCHIVE"]. split; [cbn; lia|]. intros. cbn [transition_all].
    by run_step "archived".
  - exists []. split; [cbn; lia|]. intros. reflexivity.
  - exists ["ARCHIVE"]. split; [cbn; lia|]. intros. cbn [transition_all].
    by run_step "archived".
Qed.

(** X7 (witness). *)
Lemma every_state_reaches_archived_witness :
  "qc_failed" ∈ BLOCK_STATES
  /\ exists events,
       (length events <= 4)%nat
       /\ forall m b p,
           transition_all (mkFSM "qc_failed" m b p) events
           = (inr tt, mkFSM "archived" m b p).
Proof.
  assert (Hs : "qc_failed" ∈ BLOCK_STATES) by table_entry.
  split; [exact Hs|]. exact (every_state_reaches_archived "qc_failed" Hs).
Defined.

End MachineFacts.

(** ** The plan of a document *)

Module PlanFacts.
Import Models Planner PlanViews.

Lemma section_steps_blocks chapter section :
  omap step_block (section_steps chapter section)
  = info_block_id <$> default [] (section_blocks section).
Proof.
  unfold section_steps. destruct (section_blocks section) as [blocks|];
    [|reflexivity].
  cbn [default from_option id]. induction blocks as [|b blocks IH];
    [reflexivity|]. cbn. by rewrite <- IH.
Qed.

Lemma omap_flat_map {A B C} (f : B -> option C) (g : A -> list B) l :
  omap f (flat_map g l) = flat_map (fun a => omap f (g a)) l.
Proof.
  induction l as [|a l IH]; [reflexivity|].
  cbn [flat_map]. by rewrite omap_app, IH.
Qed.

Lemma fmap_flat_map {A B C} (f : B -> C) (g : A -> list B) l :
  f <$> flat_map g l = flat_map (fun a => f <$> g a) l.
Proof.
  induction l as [|a l IH]; [reflexivity|].
  cbn [flat_map]. by rewrite fmap_app, IH.
Qed.

Lemma flat_map_ext_eq {A B} (f g : A -> list B) l :
  (forall a, f a = g a) -> flat_map f l = flat_map g l.
Proof. intros H. induction l as [|a l IH]; [done|]. cbn. by rewrite H, IH. Qed.

Lemma chapter_steps_blocks chapter :
  omap step_block (chapter_steps chapter)
  = info_block_id
      <$> flat_map (fun section => default [] (section_blocks section))
            (default [] (chapter_sections chapter)).
Proof.
  unfold chapter_steps. cbn [omap list_omap step_block].
  destruct (chapter_sections chapter) as [sections|]; [|reflexivity].
  cbn [default from_option id].
  rewrite omap_flat_map, fmap_flat_map.
  apply flat_map_ext_eq. intros section. apply section_steps_blocks.
Qed.

(** X8: the generate_block steps of a plan name the blocks of the document in
    the order of the document, each once per reference. *)
Theorem plan_lists_blocks_in_document_order structure p v :
  omap step_block (generate_initial_plan structure p v)
  = info_block_id <$> structure_blocks structure.
Proof.
  unfold generate_initial_plan, structure_blocks.
  rewrite omap_app. cbn [omap list_omap step_block]. rewrite app_nil_r.
  destruct (chapters structure) as [chs|]; [|reflexivity].
  cbn [default from_option id].
  rewrite omap_flat_map, fmap_flat_map.
  apply flat_map_ext_eq. intros chapter. apply chapter_steps_blocks.
Qed.

Lemma section_steps_length chapter section :
  length (section_steps chapter section)
  = length (default [] (section_blocks section)).
Proof.
  unfold section_steps. destruct (section_blocks section); [|reflexivity].
  apply length_map.
Qed.

Lemma flat_map_length_sum {A B} (f : A -> list B) l :
  length (flat_map f l) = sum_list (map (fun a => length (f a)) l).
Proof.
  induction l as [|a l IH]; [reflexivity|].
  cbn [flat_map map sum_list]. by rewrite length_app, IH.
Qed.

Lemma chapter_steps_length chapter :
  length (chapter_steps chapter)
  = S (length (flat_map (fun section => default [] (section_blocks section))
                 (default [] (chapter_sections chapter)))).
Proof.
  unfold chapter_steps. cbn [length]. f_equal.
  destruct (chapter_sections chapter) as [sections|]; [|reflexivity].
  cbn [default from_option id]. rewrite !flat_map_length_sum. f_equal.
  apply map_ext. intros section. apply section_steps_length.
Qed.

(** X9: a plan has one step for each chapter, one for each block reference,
    and one more, the final assembly, which is its last step and occurs
    nowhere else. *)
Theorem plan_shape structure p v :
  let plan := generate_initial_plan structure p v in
  length plan
  = (length (default [] (chapters structure))
     + length (structure_blocks structure) + 1)%nat
  /\ last plan = Some (FinalAssembly v)
  /\ (forall i v', plan !! i = Some (FinalAssembly v') ->
                   S i = length plan /\ v' = v).
Proof.
  cbv zeta. unfold generate_initial_plan, structure_blocks.
  set (chs := default [] (chapters structure)).
  assert (Hbody : match chapters structure with
                  | Some chapters => flat_map chapter_steps chapters
                  | None => []
                  end = flat_map chapter_steps chs).
  { subst chs. by destruct (chapters structure). }
  rewrite Hbody. clear Hbody.
  assert (Hlen : length (flat_map chapter_steps chs)
                 = (length chs
                    + length (flat_map
                        (fun chapter =>
                           flat_map
                             (fun section =>
                                default [] (section_blocks section))
                             (default [] (chapter_sections chapter)))
                        chs))%nat).
  { induction chs as [|c chs IH]; [reflexivity|].
    cbn [flat_map length]. rewrite !length_app, IH, chapter_steps_length.
    lia. }
  split; [rewrite length_app, Hlen; cbn [length]; lia|].
  split; [apply last_snoc|].
  intros i v' Hi. rewrite length_app. cbn [length].
  destruct (decide (i < length (flat_map chapter_steps chs))%nat) as [Hlt|Hge].
  - exfalso. rewrite lookup_app_l in Hi by done.
    apply list_elem_of_lookup_2, list_elem_of_In, in_flat_map in Hi.
    destruct Hi as (c & _ & Hin). unfold chapter_steps in Hin.
    destruct Hin as [Hin|Hin]; [discriminate|].
    destruct (chapter_sections c) as [sections|]; [|done].
    apply in_flat_map in Hin as (s & _ & Hin). unfold section_steps in Hin.
    destruct (section_blocks s) as [blocks|]; [|done].
    apply in_map_iff in Hin as (b & Hb & _). discriminate.
  - rewrite lookup_app_r in Hi by lia.
    destruct (i - length (flat_map chapter_steps chs))%nat as [|k] eqn:Hk;
      [|by destruct k].
    injection Hi as <-. split; [lia|done].
Qed.

(** The planner stops at the step of the index when that step is not
    skipped. *)
Lemma planner_stops project dv idx blocks step :
  (idx < Z.of_nat (length (generate_initial_plan (content_structure dv)
                             (project_id project) (dv_version_id dv))))%Z ->
  getitem (generate_initial_plan (content_structure dv)
             (project_id project) (dv_version_id dv)) idx = inr step ->
  already_processed blocks step = false ->
  get_next_task_in_plan project dv idx blocks = Some (inr (Some step)).
Proof.
  intros Hlt Hget Hproc. unfold get_next_task_in_plan. cbv zeta.
  cbn [next_task_from]. rewrite bool_decide_eq_false_2 by lia.
  by rewrite Hget, Hproc.
Qed.

(** X10: negative indices count from the end of the plan, as Python's lists
    do: below minus the length the planner raises [IndexError]; from there
    up to -1 it examines the step at that distance from the end, so that
    the index -1 always gives the final assembly. *)
Theorem planner_negative_index project dv idx blocks :
  let plan := generate_initial_plan (content_structure dv)
                (project_id project) (dv_version_id dv) in
  (idx < 0)%Z ->
  ((idx < - Z.of_nat (length plan))%Z ->
   get_next_task_in_plan project dv idx blocks = Some (inl IndexError))
  /\ (forall step,
        plan !! Z.to_nat (idx + Z.of_nat (length plan)) = Some step ->
        (- Z.of_nat (length plan) <= idx)%Z ->
        already_processed blocks step = false ->
        get_next_task_in_plan project dv idx blocks = Some (inr (Some step)))
  /\ get_next_task_in_plan project dv (-1) blocks
     = Some (inr (Some (FinalAssembly (dv_version_id dv)))).
Proof.
  intros plan Hneg. split; [|split].
  - intros Hlow. unfold get_next_task_in_plan. cbv zeta. fold plan.
    cbn [next_task_from]. rewrite bool_decide_eq_false_2 by lia.
    unfold getitem. cbv zeta.
    rewrite (bool_decide_eq_true_2 (idx < 0)%Z) by done. cbv iota.
    by rewrite bool_decide_eq_true_2 by lia.
  - intros step Hstep Hlow Hproc. apply planner_stops; [fold plan; lia| |done].
    fold plan. unfold getitem. cbv zeta.
    rewrite (bool_decide_eq_true_2 (idx < 0)%Z) by done. cbv iota.
    rewrite bool_decide_eq_false_2 by lia. by rewrite Hstep.
  - apply planner_stops; [lia| |done].
    fold plan. unfold getitem. cbv zeta.
    rewrite (bool_decide_eq_true_2 (-1 < 0)%Z) by done. cbv iota.
    assert (Hlen : length plan
                   = S (length (match chapters (content_structure dv) with
                                | Some chapters =>
                                    flat_map chapter_steps chapters
                                | None => []
                                end))).
    { subst plan. unfold generate_initial_plan.
      rewrite length_app. cbn [length]. lia. }
    rewrite bool_decide_eq_false_2 by lia.
    replace (Z.to_nat (-1 + Z.of_nat (length plan)))
      with (length (match chapters (content_structure dv) with
                    | Some chapters => flat_map chapter_steps chapters
                    | None => []
                    end)) by lia.
    subst plan. unfold generate_initial_plan.
    by rewrite list_lookup_middle.
Qed.

(** X10 (witness). *)
Lemma planner_negative_index_witness :
  (-5 < 0)%Z
  /\ get_next_task_in_plan (Examples.project_in "Autonome")
       Examples.version_v1 (-5) [Examples.block_in "validated" 0]
     = Some (inl IndexError)
  /\ get_next_task_in_plan (Examples.project_in "Autonome")
       Examples.version_v1 (-1) [Examples.block_in "validated" 0]
     = Some (inr (Some (FinalAssembly "v1"))).
Proof.
  assert (Hneg : (-5 < 0)%Z) by lia.
  split; [exact Hneg|]. split.
  - apply (proj1 (planner_negative_index (Examples.project_in "Autonome")
                    Examples.version_v1 (-5)
                    [Examples.block_in "validated" 0] Hneg)).
    vm_compute. reflexivity.
  - exact (proj2 (proj2 (planner_negative_index
                           (Examples.project_in "Autonome")
                           Examples.version_v1 (-5)
                           [Examples.block_in "validated" 0] Hneg))).
Defined.

(** X11: before any block exists nothing is skipped: with an empty list of
    blocks the planner returns the step at the index, and no step from the
    end of the plan on. *)
Theorem planner_without_blocks project dv idx :
  (0 <= idx)%Z ->
  get_next_task_in_plan project dv idx []
  = Some (inr (generate_initial_plan (content_structure dv)
                 (project_id project) (dv_version_id dv)
               !! Z.to_nat idx)).
Proof.
  intros Hidx.
  set (plan := generate_initial_plan (content_structure dv)
                 (project_id project) (dv_version_id dv)).
  destruct (plan !! Z.to_nat idx) as [step|] eqn:Hstep.
  - assert (Hlt := lookup_lt_Some _ _ _ Hstep).
    apply planner_stops; [fold plan; lia| |].
    + fold plan. unfold getitem. cbv zeta.
      rewrite (bool_decide_eq_false_2 (idx < 0)%Z) by lia. cbv iota.
      rewrite (bool_decide_eq_false_2 (idx < 0)%Z) by lia. by rewrite Hstep.
    + destruct step as [| id ? ? ? |]; try reflexivity.
      cbn [already_processed]. by destruct id.
  - apply lookup_ge_None in Hstep.
    unfold get_next_task_in_plan. cbv zeta. fold plan.
    cbn [next_task_from]. by rewrite bool_decide_eq_true_2 by lia.
Qed.

(** X11 (witness). *)
Lemma planner_without_blocks_witness :
  (0 <= 1)%Z
  /\ get_next_task_in_plan (Examples.project_in "Autonome")
       Examples.version_v1 1 []
     = Some (inr (Some (GenerateBlock (Some "b1") (Some "definition")
                          (Some "sec1.1") (Some "chap1")))).
Proof.
  assert (Hidx : (0 <= 1)%Z) by lia.
  split; [exact Hidx|].
  exact (planner_without_blocks (Examples.project_in "Autonome")
           Examples.version_v1 1 Hidx).
Defined.

End PlanFacts.

(** ** The score of a QC report *)

Module ScoreBounds.
Import Models ScoreCalculator.
Open Scope Q_scope.

Lemma Qmin_le_l a b : Qmin a b <= a.
Proof.
  unfold Qmin. destruct (Qle_bool a b) eqn:H; [apply Qle_refl|].
  apply Qlt_le_weak, Qnot_le_lt. intros Hle.
  apply Qle_bool_iff in Hle. congruence.
Qed.

Lemma Qmin_le_r a b : Qmin a b <= b.
Proof.
  unfold Qmin. destruct (Qle_bool a b) eqn:H; [|apply Qle_refl].
  by apply Qle_bool_iff.
Qed.

Lemma Qmin_glb a b c : c <= a -> c <= b -> c <= Qmin a b.
Proof. intros. unfold Qmin. by destruct (Qle_bool a b). Qed.

Lemma Qmax_le_l a b : a <= Qmax a b.
Proof.
  unfold Qmax. destruct (Qle_bool b a) eqn:H; [apply Qle_refl|].
  apply Qlt_le_weak, Qnot_le_lt. intros Hle.
  apply Qle_bool_iff in Hle. congruence.
Qed.

Lemma Qmax_lub a b c : a <= c -> b <= c -> Qmax a b <= c.
Proof. intros. unfold Qmax. by destruct (Qle_bool b a). Qed.

Lemma Qmin_mono a b b' : b <= b' -> Qmin a b <= Qmin a b'.
Proof.
  intros H. apply Qmin_glb; [apply Qmin_le_l|].
  eapply Qle_trans; [apply Qmin_le_r|done].
Qed.

Lemma Qmin_mono_l a a' b : a <= a' -> Qmin a b <= Qmin a' b.
Proof.
  intros H. apply Qmin_glb; [|apply Qmin_le_r].
  eapply Qle_trans; [apply Qmin_le_l|done].
Qed.

Lemma Qmax_mono a b b' : b <= b' -> Qmax a b <= Qmax a b'.
Proof.
  intros H. apply Qmax_lub; [apply Qmax_le_l|].
  eapply Qle_trans; [done|]. unfold Qmax.
  destruct (Qle_bool b' a) eqn:Hb; [by apply Qle_bool_iff|apply Qle_refl].
Qed.

Lemma severity_penalty_nonneg sev : 0 <= severity_penalty sev.
Proof. unfold severity_penalty. repeat case_bool_decide; done. Qed.

(** The loop of penalties, one round at a time. *)
Lemma apply_penalties_cons p l s :
  apply_penalties (p :: l) s
  = apply_penalties l
      (if bool_decide (severity p = "critical")
       then Qmin (s - severity_penalty (severity p)) 20
       else s - severity_penalty (severity p)).
Proof. reflexivity. Qed.

Lemma apply_penalties_app l1 l2 s :
  apply_penalties (l1 ++ l2) s = apply_penalties l2 (apply_penalties l1 s).
Proof. apply fold_left_app. Qed.

(** A round never raises the score, and keeps the order of two scores. *)
Lemma round_le p s :
  (if bool_decide (severity p = "critical")
   then Qmin (s - severity_penalty (severity p)) 20
   else s - severity_penalty (severity p)) <= s.
Proof.
  pose proof (severity_penalty_nonneg (severity p)) as Hp.
  case_bool_decide.
  - eapply Qle_trans; [apply Qmin_le_l|]. lra.
  - lra.
Qed.

Lemma round_mono p s s' :
  s <= s' ->
  (if bool_decide (severity p = "critical")
   then Qmin (s - severity_penalty (severity p)) 20
   else s - severity_penalty (severity p))
  <= (if bool_decide (severity p = "critical")
      then Qmin (s' - severity_penalty (severity p)) 20
      else s' - severity_penalty (severity p)).
Proof.
  intros H. case_bool_decide.
  - apply Qmin_mono_l. lra.
  - lra.
Qed.

Lemma apply_penalties_le l s : apply_penalties l s <= s.
Proof.
  revert s. induction l as [|p l IH]; intros s; [apply Qle_refl|].
  rewrite apply_penalties_cons.
  eapply Qle_trans; [apply IH|apply round_le].
Qed.

Lemma apply_penalties_mono l s s' :
  s <= s' -> apply_penalties l s <= apply_penalties l s'.
Proof.
  revert s s'. induction l as [|p l IH]; intros s s' H; [done|].
  rewrite !apply_penalties_cons. by apply IH, round_mono.
Qed.

Lemma apply_penalties_critical l s problem :
  problem ∈ l -> severity problem = "critical" ->
  apply_penalties l s <= 20.
Proof.
  intros Hin Hsev. revert s.
  induction l as [|p l IH]; intros s; [by apply elem_of_nil in Hin|].
  rewrite apply_penalties_cons.
  apply elem_of_cons in Hin as [<-|Hin].
  - rewrite bool_decide_eq_true_2 by done.
    eapply Qle_trans; [apply apply_penalties_le|apply Qmin_le_r].
  - by apply IH.
Qed.

(** X12: the score of a report is between 0 and 100, so that the bounds that
    the model [QCReport] puts on [overall_score] accept it: dumping a
    calculated report and building it again gives the report back. *)
Theorem calculated_score_is_valid m p c :
  0 <= overall_score (calculate_overall_score m p c)
  /\ overall_score (calculate_overall_score m p c) <= 100
  /\ QCReport_parse (model_dump (calculate_overall_score m p c))
     = inr (calculate_overall_score m p c).
Proof.
  assert (H0 : 0 <= overall_score (calculate_overall_score m p c))
    by apply Qmax_le_l.
  assert (H100 : overall_score (calculate_overall_score m p c) <= 100).
  { apply Qmax_lub; [done|apply Qmin_le_l]. }
  split; [done|]. split; [done|].
  unfold QCReport_parse, model_dump.
  cbn [data_overall_score data_status data_problems default from_option id].
  apply Qle_bool_iff in H0, H100. rewrite H0, H100. cbn [andb].
  by destruct (calculate_overall_score m p c).
Qed.

(** X13: a critical problem, in whichever of the three reports, keeps the score
    at 20 or below. *)
Theorem critical_problem_caps_score m p c problem :
  problem ∈ problems (calculate_overall_score m p c) ->
  severity problem = "critical" ->
  overall_score (calculate_overall_score m p c) <= 20.
Proof.
  intros Hin Hsev. unfold calculate_overall_score in *.
  cbn [overall_score problems] in *.
  apply Qmax_lub; [done|].
  eapply Qle_trans; [apply Qmin_le_r|].
  by eapply apply_penalties_critical.
Qed.

(** X13 (witness). *)
Lemma critical_problem_caps_score_witness :
  overall_score
    (calculate_overall_score
       (mkSubReport
          (Some [mkQCProblem "math_error" "critical" "division par zéro"
                   None None]) (Some 1) None)
       (mkSubReport None None (Some 100))
       (mkSubReport None None (Some 100)))
  <= 20.
Proof.
  apply (critical_problem_caps_score _ _ _
           (mkQCProblem "math_error" "critical" "division par zéro"
              None None)).
  - apply list_elem_of_here.
  - reflexivity.
Defined.

(** X14: the status of a report against its score: passed exactly from 90 on
    and partial_success exactly from 60 to below 90, both without a
    critical problem; failed otherwise. *)
Theorem status_follows_score m p c :
  let r := calculate_overall_score m p c in
  let critical :=
    existsb (fun q => bool_decide (severity q = "critical")) (problems r) in
  (status r = "passed" <-> 90 <= overall_score r /\ critical = false)
  /\ (status r = "partial_success" <->
      60 <= overall_score r /\ ~ 90 <= overall_score r /\ critical = false)
  /\ (status r = "failed" <->
      ~ 60 <= overall_score r \/ critical = true).
Proof.
  cbv zeta. unfold calculate_overall_score.
  cbn [status overall_score problems].
  set (sc := Qmax 0 _). set (crit := existsb _ _).
  unfold threshold_passed, threshold_partial_success.
  assert (Hno : forall b, Qle_bool b sc = false -> ~ b <= sc).
  { intros b Hb Hle. apply Qle_bool_iff in Hle. congruence. }
  destruct crit.
  - split; [|split]; split; try discriminate; try tauto.
    + intros [_ ?]. discriminate.
    + intros (_ & _ & ?). discriminate.
  - destruct (Qle_bool 90 sc) eqn:H90.
    + apply Qle_bool_iff in H90.
      split; [|split]; split; try discriminate; try tauto.
      * intros [Hlow|?]; [|discriminate]. exfalso. apply Hlow. lra.
    + apply Hno in H90. destruct (Qle_bool 60 sc) eqn:H60.
      * apply Qle_bool_iff in H60.
        split; [|split]; split; try discriminate; try tauto.
        intros [?|?]; [tauto|discriminate].
      * apply Hno in H60.
        split; [|split]; split; try discriminate; try tauto.
Qed.

Lemma apply_penalties_sublist l l' :
  l `sublist_of` l' ->
  forall s s', s' <= s -> apply_penalties l' s' <= apply_penalties l s.
Proof.
  induction 1 as [|x l l' _ IH|x l l' _ IH]; intros s s' Hs.
  - done.
  - rewrite !apply_penalties_cons. by apply IH, round_mono.
  - rewrite apply_penalties_cons. apply IH.
    eapply Qle_trans; [apply round_le|done].
Qed.

(** X15: reporting more problems never raises the score: when the analysers
    give the same confidence and scores, and the problems of one run are
    among those of another, in the same order, the run with more problems
    has the lower or equal score. *)
Theorem more_problems_never_raise_score m p c m' p' c' :
  confidence m' = confidence m ->
  score p' = score p ->
  score c' = score c ->
  problems (calculate_overall_score m p c)
    `sublist_of` problems (calculate_overall_score m' p' c') ->
  overall_score (calculate_overall_score m' p' c')
  <= overall_score (calculate_overall_score m p c).
Proof.
  unfold calculate_overall_score. cbn [problems overall_score].
  intros -> -> -> Hsub.
  apply Qmax_mono, Qmin_mono.
  by apply apply_penalties_sublist; [|apply Qle_refl].
Qed.

(** X15 (witness). *)
Lemma more_problems_never_raise_score_witness :
  overall_score
    (calculate_overall_score
       (mkSubReport
          (Some [mkQCProblem "math_error" "major" "erreur de signe"
                   None None]) (Some 1) None)
       (mkSubReport None None (Some 100))
       (mkSubReport None None (Some 100)))
  <= overall_score
       (calculate_overall_score
          (mkSubReport None (Some 1) None)
          (mkSubReport None None (Some 100))
          (mkSubReport None None (Some 100))).
Proof.
  apply more_problems_never_raise_score.
  - reflexivity.
  - reflexivity.
  - reflexivity.
  - apply sublist_nil_l.
Defined.

End ScoreBounds.

(** ** The two logic modules, on every input *)

Module LogicFacts.
Import Models Runtime EventsFacts RuntimeFacts.
Import AutonomousLogic SupervisorLogic.

(** What a run leaves untouched. *)
Ltac same_stores :=
  solve [ cbn [fst snd push_log projects documents content_blocks
               workflow_tasks celery_queue]; repeat split; eauto ].

(** X16: whatever the project, the block and the report, the processing of a QC
    result in autonomous mode ends in an exception, and it writes neither
    a project nor a block nor a task row, and enqueues nothing. *)
Theorem process_result_always_raises settings pid bid qc w :
  let r := process_generated_block_result settings pid bid qc w in
  (exists e, fst r = inl e)
  /\ projects (snd r) = projects w
  /\ content_blocks (snd r) = content_blocks w
  /\ workflow_tasks (snd r) = workflow_tasks w
  /\ celery_queue (snd r) = celery_queue w.
Proof.
  cbv zeta.
  destruct (projects w !! pid) as [project|] eqn:Hp.
  2: { unfold process_generated_block_result, bind, _get_project_and_block.
       rewrite Hp. same_stores. }
  destruct (content_blocks w !! bid) as [block|] eqn:Hb.
  2: { unfold process_generated_block_result, bind, _get_project_and_block.
       rewrite Hp, Hb. same_stores. }
  destruct (decide (project_mode project = "Autonome")) as [Hmode|Hmode].
  2: { unfold process_generated_block_result.
       rewrite (bind_inr _ _ _ _ _
                  (get_project_and_block_run _ _ _ _ _ Hp Hb)).
       rewrite bool_decide_eq_false_2 by done. same_stores. }
  destruct (decide (block_status block ∈ StateMachine.BLOCK_STATES))
    as [Hstate|Hstate].
  - rewrite (EndpointFacts.process_run settings w pid bid project block qc)
      by done.
    same_stores.
  - unfold process_generated_block_result.
    rewrite (bind_inr _ _ _ _ _ (get_project_and_block_run _ _ _ _ _ Hp Hb)).
    rewrite bool_decide_eq_true_2 by done. cbn [negb].
    rewrite (bind_inl _ _ _ _ _ (new_fsm_invalid _ _ _ _ _ Hstate)).
    same_stores.
Qed.

(** X17: in a supervised project a signal other than ALL_APPROVED, known or
    not, ends in an exception and changes no project, no block and no
    queue: VALIDATED and REDO are answered by an error on every input. *)
Theorem only_all_approved_can_succeed pid signal w :
  signal_type signal <> "ALL_APPROVED" ->
  let r := handle_user_signal pid signal w in
  (exists e, fst r = inl e)
  /\ projects (snd r) = projects w
  /\ content_blocks (snd r) = content_blocks w
  /\ celery_queue (snd r) = celery_queue w.
Proof.
  intros Hty. cbv zeta. unfold handle_user_signal.
  destruct (_get_project_and_block pid (signal_block_id signal) w)
    as [[e|[project block]] w0] eqn:Hget.
  { rewrite (bind_inl _ _ _ _ _ Hget).
    unfold _get_project_and_block in Hget.
    destruct (projects w !! pid); [|injection Hget as _ <-; same_stores].
    destruct (signal_block_id signal) as [b|]; [|discriminate].
    destruct (content_blocks w !! b); [discriminate|].
    injection Hget as _ <-. same_stores. }
  rewrite (bind_inr _ _ _ _ _ Hget).
  assert (w0 = w) as ->.
  { unfold _get_project_and_block in Hget.
    destruct (projects w !! pid); [|discriminate].
    destruct (signal_block_id signal) as [b|]; [|by injection Hget].
    destruct (content_blocks w !! b); [by injection Hget|discriminate]. }
  case_bool_decide as Hmode; cbn [negb]; [|same_stores].
  destruct block as [block|].
  - destruct (decide (block_status block ∈ StateMachine.BLOCK_STATES))
      as [Hstate|Hstate].
    + rewrite (bind_inr _ _ _ _ _
                 (bind_inr _ _ _ _ _ (new_fsm_run _ _ _ _ _ Hstate))).
      cbn [ret]. case_bool_decide as Hv.
      * rewrite (bind_inr _ _ _ _ _ (EVENTS_run "USER_VALIDATE" _ _ eq_refl)).
        rewrite (bind_inl _ _ _ _ _
                   (fsm_transition_description _ "USER_VALIDATE" _ _
                      eq_refl)).
        same_stores.
      * case_bool_decide as Hr.
        -- destruct (feedback signal) as [[|x fb]|]; try same_stores.
           rewrite (bind_inr _ _ _ _ _ (EVENTS_run "USER_REDO" _ _ eq_refl)).
           rewrite (bind_inl _ _ _ _ _
                      (fsm_transition_description _ "USER_REDO" _ _
                         eq_refl)).
           same_stores.
        -- rewrite bool_decide_eq_false_2 by done. same_stores.
    + rewrite (bind_inl _ _ _ _ _
                 (bind_inl _ _ _ _ _ (new_fsm_invalid _ _ _ _ _ Hstate))).
      same_stores.
  - unfold bind at 1, ret.
    case_bool_decide as Hv; [same_stores|].
    case_bool_decide as Hr.
    + destruct (feedback signal) as [[|x fb]|]; same_stores.
    + rewrite bool_decide_eq_false_2 by done. same_stores.
Qed.

(** X17 (witness). *)
Lemma only_all_approved_can_succeed_witness :
  "VALIDATED" <> "ALL_APPROVED"
  /\ let r := handle_user_signal "p1"
                (mkSignal "VALIDATED" (Some "b1") None)
                (Examples.world_with "Supervisé" "pending_validation" 0) in
     (exists e, fst r = inl e)
     /\ projects (snd r)
        = projects (Examples.world_with "Supervisé" "pending_validation" 0)
     /\ content_blocks (snd r)
        = content_blocks
            (Examples.world_with "Supervisé" "pending_validation" 0)
     /\ celery_queue (snd r)
        = celery_queue
            (Examples.world_with "Supervisé" "pending_validation" 0).
Proof.
  assert (Hty : "VALIDATED" <> "ALL_APPROVED") by discriminate.
  split; [exact Hty|].
  exact (only_all_approved_can_succeed "p1"
           (mkSignal "VALIDATED" (Some "b1") None)
           (Examples.world_with "Supervisé" "pending_validation" 0) Hty).
Defined.

(** X18: ALL_APPROVED in a supervised project, sent without a block: unless the
    project is completed the signal is refused and nothing changes; when
    it is, the assembly of the current version is enqueued and the project
    is set to export_pending, while the answer is the project as it was
    read, with the status completed. *)
Theorem all_approved_in_supervised_mode pid signal project w :
  projects w !! pid = Some project ->
  project_mode project = "Supervisé" ->
  signal_type signal = "ALL_APPROVED" ->
  signal_block_id signal = None ->
  let r := handle_user_signal pid signal w in
  (project_status project <> "completed" ->
   r = (inl (BadRequestException "ALL_APPROVED"), w))
  /\ (project_status project = "completed" ->
      forall document_data vid,
        documents w !! pid = Some document_data ->
        current_version_id document_data = Some vid ->
        StateMachine.truthy vid = true ->
        fst r = inr project
        /\ celery_queue (snd r) = (celery_queue w ++ [assemble_call vid])%list
        /\ projects (snd r)
           = <[pid := mkProject (project_id project) "Supervisé"
                        "export_pending" (current_step project)]>
               (projects w)
        /\ content_blocks (snd r) = content_blocks w).
Proof.
  intros Hp Hmode Hty Hblock. cbv zeta. unfold handle_user_signal.
  assert (Hget : _get_project_and_block pid (signal_block_id signal) w
                 = (inr (project, None), w)).
  { unfold _get_project_and_block. by rewrite Hp, Hblock. }
  rewrite (bind_inr _ _ _ _ _ Hget).
  rewrite Hmode, bool_decide_eq_true_2 by done. cbn [negb].
  unfold bind at 1, ret. rewrite Hty.
  rewrite !bool_decide_eq_false_2 by discriminate.
  rewrite (bool_decide_eq_true_2 ("ALL_APPROVED" = "ALL_APPROVED")) by done.
  split.
  - intros Hst. by rewrite bool_decide_eq_false_2 by done.
  - intros Hst document_data vid Hd Hv Ht.
    rewrite bool_decide_eq_true_2 by done. cbn [negb].
    unfold bind, get_world, ret, apply_async, modify,
      _update_project_status, raise.
    cbv beta iota. rewrite Hd. cbv beta iota. rewrite Hv.
    cbn [truthy_opt default from_option id]. rewrite Ht. cbv beta iota.
    unfold modify, put_project. cbv beta iota.
    cbn [push_celery_call projects]. rewrite Hp.
    cbn [fst snd default from_option id set_projects projects celery_queue
         content_blocks truthy_opt].
    by rewrite Hmode.
Qed.

(** X18 (witness). *)
Lemma all_approved_in_supervised_mode_witness :
  let w := set_projects
             (fun _ => {[ "p1" := mkProject "p1" "Supervisé" "completed"
                                    None ]})
             (Examples.world_with "Supervisé" "validated" 0) in
  let r := handle_user_signal "p1" (mkSignal "ALL_APPROVED" None None) w in
  fst r = inr (mkProject "p1" "Supervisé" "completed" None)
  /\ celery_queue (snd r) = [assemble_call "v1"]
  /\ projects (snd r)
     = <["p1" := mkProject "p1" "Supervisé" "export_pending" None]>
         (projects w)
  /\ content_blocks (snd r) = content_blocks w.
Proof.
  cbv zeta.
  set (w := set_projects
              (fun _ => {[ "p1" := mkProject "p1" "Supervisé" "completed"
                                     None ]})
              (Examples.world_with "Supervisé" "validated" 0)).
  assert (Hp : projects w !! "p1"
               = Some (mkProject "p1" "Supervisé" "completed" None))
    by reflexivity.
  assert (Hd : documents w !! "p1" = Some (mkDocument "d1" (Some "v1")))
    by reflexivity.
  exact (proj2 (all_approved_in_supervised_mode "p1"
                  (mkSignal "ALL_APPROVED" None None)
                  (mkProject "p1" "Supervisé" "completed" None) w
                  Hp eq_refl eq_refl eq_refl)
           eq_refl (mkDocument "d1" (Some "v1")) "v1" Hd eq_refl eq_refl).
Defined.

End LogicFacts.

(** ** The Celery tasks, on every input *)

Module TaskRunFacts.
Import Models Runtime EventsFacts RuntimeFacts WorkflowTasks TaskStepFacts.

(** X19: both tasks, for a block that does not exist: the failure of the first
    read is met again by the write of the handler, and the task ends with
    [NotFoundException], nothing written and nothing enqueued. *)
Theorem tasks_on_a_missing_block settings bid fb is_refinement content qc w :
  content_blocks w !! bid = None ->
  generate_content_block_task bid fb is_refinement content w
  = (inl (NotFoundException bid), w)
  /\ run_qc_task settings bid qc w = (inl (NotFoundException bid), w).
Proof.
  intros H.
  assert (Hh : forall message,
             critical_handler message bid (NotFoundException bid) w
             = (inl (NotFoundException bid), w)).
  { intros message. unfold critical_handler.
    rewrite (bind_inr _ _ _ _ _ (EVENTS_run "CRITICAL_FAIL" _ _ eq_refl)).
    by rewrite (bind_inl _ _ _ _ _ (update_block_missing _ _ _ H)). }
  assert (Hg : get_content_block_state bid w
               = (inl (NotFoundException bid), w)).
  { unfold get_content_block_state. by rewrite H. }
  split.
  - unfold generate_content_block_task, try_except.
    rewrite (bind_inl _ _ _ _ _ Hg). apply Hh.
  - unfold run_qc_task, try_except.
    rewrite (bind_inl _ _ _ _ _ Hg). apply Hh.
Qed.

(** X19 (witness). *)
Lemma tasks_on_a_missing_block_witness :
  generate_content_block_task "b2" None false "Soit $x$."
    (Examples.world_with "Supervisé" "pending_generation" 0)
  = (inl (NotFoundException "b2"),
     Examples.world_with "Supervisé" "pending_generation" 0)
  /\ run_qc_task get_settings "b2" (Examples.report_passed 85)
       (Examples.world_with "Supervisé" "pending_generation" 0)
     = (inl (NotFoundException "b2"),
        Examples.world_with "Supervisé" "pending_generation" 0).
Proof.
  apply (tasks_on_a_missing_block get_settings "b2" None false "Soit $x$."
           (Examples.report_passed 85)
           (Examples.world_with "Supervisé" "pending_generation" 0)).
  reflexivity.
Defined.





End TaskRunFacts.

(** ** The table of actions *)

Module ActionFacts.
Import StateMachine Models Transitions EventsFacts.

(** The dictionary of actions, computed. *)
Lemma TRANSITION_ACTIONS_items :
  items_of TRANSITION_ACTIONS_rows
  = inr [ ("generation_in_progress", "Génération réussie",
             Some action_generate_success);
          ("qc_in_progress", "QC réussi", None);
          ("qc_in_progress", "QC échoué", Some action_qc_failed);
          ("pending_validation", "Validation utilisateur",
             Some action_user_validate);
          ("pending_validation", "Demande de raffinement par l'utilisateur",
             Some action_user_redo);
          ("refinement_in_progress", "Raffinement réussi",
             Some action_refinement_success);
          ("generation_in_progress", "Génération échouée",
             Some action_failed_state);
          ("refinement_in_progress", "Raffinement échouée",
             Some action_failed_state);
          ("generation_in_progress", "Échec critique",
             Some action_failed_state);
          ("qc_in_progress", "Échec critique", Some action_failed_state);
          ("refinement_in_progress", "Échec critique",
             Some action_failed_state) ].
Proof. vm_compute. reflexivity. Qed.

(** The entries of a dictionary built from a list of items are items of
    the list. *)
Lemma literal_entry {K A} `{Countable K} (P : K * A -> Prop)
    (items : list (K * A)) k a :
  Forall P items ->
  (list_to_map (reverse items) : gmap K A) !! k = Some a -> P (k, a).
Proof.
  intros Hall Hlook. apply elem_of_list_to_map_2 in Hlook.
  rewrite elem_of_reverse in Hlook.
  rewrite Forall_forall in Hall. by apply Hall.
Qed.

(** No key of the dictionary has the name of an event as its second
    component. *)
Lemma action_keys_are_descriptions actions state event action :
  TRANSITION_ACTIONS = inr actions ->
  actions !! (state, event) = Some action ->
  EVENTS !! event = None.
Proof.
  unfold TRANSITION_ACTIONS. rewrite TRANSITION_ACTIONS_items.
  intros Heq. apply (inj inr) in Heq. subst actions. intros Hlook.
  eapply (literal_entry
            (fun x : string * string * option Action =>
               EVENTS !! x.1.2 = None)) in Hlook; [exact Hlook|].
  apply (bool_decide_unpack _). vm_compute. exact I.
Qed.

(** X26: the module loads, and for an event given by its name, as the state
    machine takes it, no action runs, whatever the state, the mode and the
    keywords: the dictionary is keyed by the descriptions of the events.
    So no call that the machine accepts has an action. *)
Theorem named_events_have_no_action fsm event kwargs :
  is_Some (EVENTS !! event) ->
  execute_transition_action fsm event kwargs = inr None.
Proof.
  intros [d Hd]. unfold execute_transition_action.
  destruct TRANSITION_ACTIONS as [e|actions] eqn:Hta.
  { unfold TRANSITION_ACTIONS in Hta. rewrite TRANSITION_ACTIONS_items in Hta.
    discriminate. }
  cbn [EVENTS_getitem]. unfold EVENTS_getitem.
  assert (Hq : EVENTS !! "QC_PASSED" = Some "QC réussi") by reflexivity.
  rewrite Hq. cbv zeta.
  assert (Hne : event <> "QC réussi").
  { intros ->. discriminate Hd. }
  rewrite (bool_decide_eq_false_2 (event = "QC réussi")) by done.
  rewrite andb_false_r.
  destruct (actions !! (current_state fsm, event)) as [a|] eqn:Hlook;
    [|reflexivity].
  apply (action_keys_are_descriptions _ _ _ _ Hta) in Hlook. congruence.
Qed.

(** X26 (witness). *)
Lemma named_events_have_no_action_witness :
  is_Some (EVENTS !! "GENERATE_SUCCESS")
  /\ execute_transition_action
       (mkFSM "generation_in_progress" "Autonome" "b1" "p1")
       "GENERATE_SUCCESS" (mkKwargs None false false)
     = inr None
  /\ execute_transition_action
       (mkFSM "generation_in_progress" "Autonome" "b1" "p1")
       "Génération réussie" (mkKwargs None false false)
     = inr (Some action_generate_success).
Proof.
  assert (Hs : is_Some (EVENTS !! "GENERATE_SUCCESS"))
    by (eexists; reflexivity).
  split; [exact Hs|]. split.
  - exact (named_events_have_no_action
             (mkFSM "generation_in_progress" "Autonome" "b1" "p1")
             "GENERATE_SUCCESS" (mkKwargs None false false) Hs).
  - vm_compute. reflexivity.
Defined.

End ActionFacts.

(** ** The sanitizer of LaTeX input *)

Module UtilsFacts.
Import Utils.

(** The characters of a string. *)
Lemma remove_from_sublist skip old s :
  String.list_ascii_of_string (remove_from skip old s)
    `sublist_of` String.list_ascii_of_string s.
Proof.
  revert skip. induction s as [|c s IH]; intros skip; [done|].
  cbn [remove_from]. destruct skip as [|skip].
  - destruct (String.prefix old (String c s)).
    + cbn [String.list_ascii_of_string]. apply sublist_cons, IH.
    + cbn [String.list_ascii_of_string]. apply sublist_skip, IH.
  - cbn [String.list_ascii_of_string]. apply sublist_cons, IH.
Qed.

(** A pattern that begins with a backslash does not occur in a string
    without backslash. *)
Lemma remove_from_no_backslash old s :
  backslash ∉ String.list_ascii_of_string s ->
  remove_from 0 (String backslash old) s = s.
Proof.
  induction s as [|c s IH]; [done|].
  cbn [String.list_ascii_of_string]. rewrite not_elem_of_cons.
  intros [Hc Hs]. cbn [remove_from String.prefix].
  destruct (Ascii.ascii_dec backslash c) as [Heq|_]; [by destruct Hc|].
  by rewrite IH.
Qed.

(** X27: the sanitizer only deletes characters: its result is a subsequence of
    its argument, hence never longer; and a string without a backslash is
    returned as it is. *)
Theorem sanitizer_only_deletes s :
  String.list_ascii_of_string (sanitize_latex_input s)
    `sublist_of` String.list_ascii_of_string s
  /\ (String.length (sanitize_latex_input s) <= String.length s)%nat
  /\ (backslash ∉ String.list_ascii_of_string s ->
      sanitize_latex_input s = s).
Proof.
  assert (Hsub : String.list_ascii_of_string (sanitize_latex_input s)
                   `sublist_of` String.list_ascii_of_string s).
  { unfold sanitize_latex_input, replace_by_empty. cbv zeta.
    etrans; [apply remove_from_sublist|].
    etrans; [apply remove_from_sublist|]. apply remove_from_sublist. }
  split; [exact Hsub|]. split.
  - apply sublist_length in Hsub.
    assert (Hl : forall t, length (String.list_ascii_of_string t)
                           = String.length t).
    { induction t as [|c t IH]; [done|]. cbn. by rewrite IH. }
    by rewrite !Hl in Hsub.
  - intros Hno. unfold sanitize_latex_input, replace_by_empty. cbv zeta.
    rewrite (remove_from_no_backslash "input" s Hno).
    rewrite (remove_from_no_backslash "include" s Hno).
    exact (remove_from_no_backslash "write18" s Hno).
Qed.

(** X27 (witness). *)
Lemma sanitizer_only_deletes_witness :
  backslash ∉ String.list_ascii_of_string "Soit $x$ un réel."
  /\ sanitize_latex_input "Soit $x$ un réel." = "Soit $x$ un réel.".
Proof.
  assert (Hno : backslash ∉ String.list_ascii_of_string "Soit $x$ un réel.")
    by (apply (bool_decide_eq_false_1 _); vm_compute; reflexivity).
  split; [exact Hno|].
  exact (proj2 (proj2 (sanitizer_only_deletes "Soit $x$ un réel.")) Hno).
Defined.

(** X28: the sanitizer makes one pass for each command, so a command that is
    put together by a later pass stays: when include is wrapped in the two
    halves of input, the result begins with the command input, whatever
    follows. *)
Theorem sanitizer_keeps_a_nested_command t :
  sanitize_latex_input
    (String backslash "in" +:+ String backslash "include" +:+ "put" +:+ t)
  = String backslash "input" +:+ sanitize_latex_input t.
Proof. reflexivity. Qed.

End UtilsFacts.
